(** * MonteCarloSimRunner: the dashboard client and the analysis engine

    A shallow embedding of the browser client of the Monte Carlo portfolio
    analyser (SummaryTable.jsx, FanChart.jsx, EquityChart.jsx, Upload.jsx,
    api.js, App.jsx), and a model
    of the analysis engine behind it.  The engine is the Python backend of
    the repository; its module [Engine] is written from the
    specification.

    Conventions.
    - A JavaScript number is a real number ([R]): the arithmetic is the exact
      one, without rounding, NaN or infinities.  Counts and indices are [nat]
      or [Z].
    - [null] in an array of numbers is [None]; a JavaScript string is a
      [string].
    - Code that throws, awaits and sets React state is written in a small
      state-and-exception monad over the component's state and the log of
      the HTTP requests it has sent.
    - [JSON.stringify], [toFixed], the server behind [fetch] and the random
      index source of the engine are parameters. *)

From Stdlib Require Import String Reals Lra Lia ZArith Bool Arith List.
From Stdlib Require Import Orders Sorted Permutation Mergesort.
Import ListNotations.

Set Warnings "-register-all".

Local Open Scope R_scope.

(* ================================================================= *)
(** * Part I: the program *)
(* ================================================================= *)

(** ** SummaryTable.jsx *)

Module SummaryTable.

(** The comparisons of JavaScript numbers, as booleans. *)
Definition geb (x y : R) : bool := if Rge_dec x y then true else false.
Definition ltb (x y : R) : bool := if Rlt_dec x y then true else false.

(** What [RiskBadge] renders: [<span className={cls}>{label}</span>]. *)
Record Badge := { className : string; label : string }.

(** [function RiskBadge({ prob_profit, prob_drawdown })] *)
Definition RiskBadge (prob_profit prob_drawdown : R) : Badge :=
  if geb prob_profit 0.99 && ltb prob_drawdown 0.01 then
    {| className := "badge badge-green"; label := "LOW" |}
  else if geb prob_profit 0.90 && ltb prob_drawdown 0.05 then
    {| className := "badge badge-green"; label := "MEDIUM-LOW" |}
  else if geb prob_profit 0.70 then
    {| className := "badge badge-amber"; label := "MEDIUM" |}
  else
    {| className := "badge badge-red"; label := "HIGH" |}.

(** [function normalCDF(x)]: the Abramowitz and Stegun polynomial.
    [-x * x / 2] is read as JavaScript reads it, [((-x) * x) / 2]. *)
Definition normalCDF (x : R) : R :=
  let t := 1 / (1 + 0.2316419 * Rabs x) in
  let d := 0.3989422820 * exp (- x * x / 2) in
  let p := d * t * (0.3193815 + t * (-0.3565638 + t * (1.7814779
             + t * (-1.8212560 + t * 1.3302744)))) in
  if geb x 0 then 1 - p else p.

(** The [metrics] object of the analysis response. *)
Record Metrics := {
  total_trades : nat;
  win_rate : R;
  mean_pnl : R;
  median_pnl : R;
  std_pnl : R;
  skewness : R;
  sharpe_ratio : R;
  total_pnl : R;
  max_drawdown : R
}.

(** A row of the scenario table. *)
Record Row := {
  row_label : string;
  mean : R;
  median : R;
  p5 : R;
  p95 : R;
  probProfit : R;
  probDD : R
}.

Section Scenario.

(** [deriveRow] is a closure of [SummaryTable]: it reads the component's
    [metrics] and [initialCapital] props. *)
Variable metrics : Metrics.
Variable initialCapital : R.

Definition n : R := INR (total_trades metrics).
Definition ic : R := initialCapital.
Definition std : R := std_pnl metrics.

(** [function deriveRow(label, meanScale)] *)
Definition deriveRow (label : string) (meanScale : R) : Row :=
  let scaledMean := mean_pnl metrics * meanScale in
  let newMean := ic + n * scaledMean in
  let newMedian := ic + n * scaledMean * 0.97 in
  let newStd := sqrt n * std in
  let newP5 := newMean - 1.645 * newStd in
  let newP95 := newMean + 1.645 * newStd in
  let z := (newMean - ic) / Rmax newStd 1 in
  let probProfit := normalCDF z in
  let zDD := (-0.5 * ic - (newMean - ic)) / Rmax newStd 1 in
  let probDD := 1 - normalCDF zDD in
  {| row_label := label; mean := newMean; median := newMedian;
     p5 := newP5; p95 := newP95; probProfit := probProfit; probDD := probDD |}.

End Scenario.

(** [x > y] on JavaScript numbers. *)
Definition gtb (x y : R) : bool := if Rgt_dec x y then true else false.

(** The colour of the P(Profit) cell:
    [row.probProfit >= 0.9 ? '#3fb950' : row.probProfit >= 0.7 ? '#d29922'
     : '#f85149']. *)
Definition profitColor (probProfit : R) : string :=
  if geb probProfit 0.9 then "#3fb950"
  else if geb probProfit 0.7 then "#d29922"
  else "#f85149".

(** The colour of the P(>50% Drawdown) cell:
    [row.probDD > 0.05 ? '#f85149' : '#8b949e']. *)
Definition drawdownColor (probDD : R) : string :=
  if gtb probDD 0.05 then "#f85149" else "#8b949e".

(** The [distribution] prop, [mc_distribution] of the response.  Its [p5]
    and [p95] are [dist_p5] and [dist_p95] here, the plain names being the
    row's. *)
Record Distribution := {
  mean_final : R;
  median_final : R;
  dist_p5 : R;
  dist_p95 : R;
  prob_profit : R;
  prob_large_drawdown : R
}.

(** The coloured cells and the badge of a table row; the text cells
    ([fmtM], [pct]) are left to [toFixed]. *)
Record Cells := {
  scenario : string;
  profit_color : string;
  drawdown_color : string;
  risk : Badge
}.

(** One [<tr>] of [rows.map(row => ...)]. *)
Definition render_row (row : Row) : Cells :=
  {| scenario := row_label row;
     profit_color := profitColor (probProfit row);
     drawdown_color := drawdownColor (probDD row);
     risk := RiskBadge (probProfit row) (probDD row) |}.

(** [const rows = [...]]: the baseline row of the simulation, then the
    four derived scenarios. *)
Definition rows (distribution : Distribution) (metrics : Metrics)
  (initialCapital : R) : list Row :=
  [ {| row_label := "A: Baseline (n+)";
       mean := mean_final distribution;
       median := median_final distribution;
       p5 := dist_p5 distribution;
       p95 := dist_p95 distribution;
       probProfit := prob_profit distribution;
       probDD := prob_large_drawdown distribution |};
    deriveRow metrics initialCapital "B: Edge +50%" 1.50;
    deriveRow metrics initialCapital "C: +Financing" 1.20;
    deriveRow metrics initialCapital "D: +Both" 1.35;
    deriveRow metrics initialCapital "E: 50% Edge Decay" 0.50 ].

(** [export default function SummaryTable({ distribution, metrics,
    initialCapital })]: [null] without a distribution or without metrics,
    else the body of the table. *)
Definition table (distribution : option Distribution)
  (metrics : option Metrics) (initialCapital : R) : option (list Cells) :=
  match distribution, metrics with
  | Some d, Some m => Some (map render_row (rows d m initialCapital))
  | _, _ => None
  end.

End SummaryTable.

(** ** FanChart.jsx *)

Module FanChart.

(** [out.push(v)] on an array. *)
Definition push {A : Type} (out : list A) (v : A) : list A := out ++ [v].

(** [fanX]: for each path its indices [0 .. path.length-1], then [null]. *)
Definition fanX (sample_paths : list (list R)) : list (option nat) :=
  fold_left
    (fun out path =>
       push (fold_left (fun out i => push out (Some i))
                       (seq 0 (length path)) out)
            None)
    sample_paths [].

(** [fanY]: for each path its values in millions, then [null]. *)
Definition fanY (sample_paths : list (list R)) : list (option R) :=
  fold_left
    (fun out path =>
       push (fold_left (fun out v => push out (Some (v / 1e6))) path out)
            None)
    sample_paths [].

(** [const x = Array.from({ length: nPoints }, (_, i) => i)] with
    [nPoints = median_path.length]: the trade index axis of the bands. *)
Definition x_axis (median_path : list R) : list nat :=
  seq 0 (length median_path).

(** [const toM = arr => arr.map(v => v / 1e6)] *)
Definition toM (arr : list R) : list R := map (fun v => v / 1e6) arr.

End FanChart.

(** ** JavaScript values, promises and the effects of the client *)

Module Js.

(** A parsed JSON value.  [JNull] is JavaScript's [null]. *)
Inductive json :=
| JNull
| JBool (b : bool)
| JNum (x : R)
| JStr (s : string)
| JArr (items : list json)
| JObj (fields : list (string * json)).

(** A JavaScript value that may be [undefined] ([None]). *)
Definition jsval := option json.

(** A thrown [Error] ([Error], [TypeError], [SyntaxError]): its message. *)
Record JsError := { message : string }.

(** How an awaited promise (or a call) ends: it resolves with a value or
    rejects with a thrown error. *)
Inductive outcome (A : Type) :=
| Return (a : A)
| Throw (e : JsError).
Arguments Return {A} a.
Arguments Throw {A} e.

(** [promise.then(f)] and [promise.catch(h)]. *)
Definition then_ {A B : Type} (p : outcome A) (f : A -> outcome B) : outcome B :=
  match p with
  | Return a => f a
  | Throw e => Throw e
  end.

Definition catch_ {A : Type} (p : outcome A) (h : JsError -> outcome A) : outcome A :=
  match p with
  | Return a => Return a
  | Throw e => h e
  end.

(** The own property [key] of an object literal. *)
Fixpoint lookup (key : string) (fields : list (string * json)) : jsval :=
  match fields with
  | [] => None
  | (k, v) :: rest => if String.eqb k key then Some v else lookup key rest
  end.

(** [j.key] for a data key ([detail], [trades]): a [TypeError] on [null],
    the property of an object, [undefined] on every other value. *)
Definition get_prop (j : json) (key : string) : outcome jsval :=
  match j with
  | JNull =>
      Throw {| message := "Cannot read properties of null (reading '"
                          ++ key ++ "')" |}
  | JObj fields => Return (lookup key fields)
  | _ => Return None
  end.

(** [new Error(msg)]: with [undefined] for [msg] the error has no message
    of its own and [err.message] is the prototype's empty string. *)
Definition new_Error (msg : option string) : JsError :=
  {| message := match msg with Some s => s | None => EmptyString end |}.

(** [a || b] on strings: the empty string is falsy. *)
Definition or_else (a b : string) : string :=
  match a with
  | EmptyString => b
  | _ => a
  end.

(** Truthiness of a JSON value. *)
Definition truthy (j : json) : bool :=
  match j with
  | JNull => false
  | JBool b => b
  | JNum x => if Req_dec_T x 0 then false else true
  | JStr s => negb (String.eqb s EmptyString)
  | JArr _ | JObj _ => true
  end.

(** Asynchronous code over a state [S]: every step may change the state
    and ends in an [outcome]. *)
Definition M (S A : Type) : Type := S -> outcome A * S.

Definition ret {S A : Type} (a : A) : M S A := fun s => (Return a, s).

Definition throw {S A : Type} (e : JsError) : M S A := fun s => (Throw e, s).

Definition bind {S A B : Type} (m : M S A) (k : A -> M S B) : M S B :=
  fun s =>
    match m s with
    | (Return a, s') => k a s'
    | (Throw e, s') => (Throw e, s')
    end.

(** A pure call that may throw. *)
Definition call {S A : Type} (r : outcome A) : M S A := fun s => (r, s).

(** [try { body } catch (err) { handler err }] *)
Definition try_catch {S A : Type} (body : M S A) (handler : JsError -> M S A)
  : M S A :=
  fun s =>
    match body s with
    | (Return a, s') => (Return a, s')
    | (Throw e, s') => handler e s'
    end.

(** [try { body } finally { fin }]: [fin] runs on both exits. *)
Definition finally_ {S A : Type} (body : M S A) (fin : M S unit) : M S A :=
  fun s =>
    match body s with
    | (r, s') =>
        match fin s' with
        | (Return _, s'') => (r, s'')
        | (Throw e, s'') => (Throw e, s'')
        end
    end.

End Js.

Declare Scope js_scope.
Delimit Scope js_scope with js.
Notation "x <- m ;; k" := (Js.bind m (fun x => k))
  (at level 61, m at next level, right associativity) : js_scope.
Notation "m ;; k" := (Js.bind m (fun _ => k))
  (at level 61, right associativity) : js_scope.

(** ** api.js *)

Module Api.
Import Js.

(** What the server returns: [res.ok], [res.statusText], and how
    [res.json()] ends (a rejection when the body is not JSON). *)
Record Response := {
  ok : bool;
  statusText : string;
  res_json : outcome json
}.

(** The [File] of the upload control. *)
Record File := { file_name : string; file_content : string }.

(** The payload of [runAnalysis]; [trades] may be [undefined]. *)
Record AnalysisRequest := {
  trades : jsval;
  initial_capital : R;
  n_simulations : Z;
  n_sample_paths : Z
}.

(** The two requests the client sends. *)
Inductive request :=
| PostUpload (file : File)
| PostAnalyze (payload : AnalysisRequest).

Section Client.

(** [JSON.stringify] on a JSON value. *)
Variable JSON_stringify : json -> string.

(** The network and the server: [fetch] rejects on a network failure. *)
Variable fetch : request -> outcome Response.

(** [async function handleResponse(res)] *)
Definition handleResponse (res : Response) : outcome json :=
  if negb (ok res) then
    then_
      (catch_ (then_ (res_json res) (fun j => get_prop j "detail"))
              (fun _ => Return (Some (JStr (statusText res)))))
      (fun detail =>
         Throw (new_Error
                  match detail with
                  | Some (JStr s) => Some s
                  | Some d => Some (JSON_stringify d)
                  | None => None
                  end))
  else res_json res.

(** [await fetch(...)]: the request is appended to the log of requests
    sent. *)
Definition send (req : request) : M (list request) Response :=
  fun sent => (fetch req, sent ++ [req]).

(** [export async function uploadFile(file)] *)
Definition uploadFile (file : File) : M (list request) json :=
  (res <- send (PostUpload file) ;;
   call (handleResponse res))%js.

(** [export async function runAnalysis(payload)] *)
Definition runAnalysis (payload : AnalysisRequest) : M (list request) json :=
  (res <- send (PostAnalyze payload) ;;
   call (handleResponse res))%js.

End Client.

End Api.

(** ** App.jsx *)

Module App.
Import Js Api.

(** The state of the [App] component. *)
Record AppState := {
  loading : bool;
  error : option string;
  results : json;
  initialCapital : R
}.

(** The component's state and the requests sent so far. *)
Record World := { app : AppState; sent : list request }.

(** The initial state: [useState(false)], [useState(null)],
    [useState(null)], [useState(1_000_000)]. *)
Definition initial : AppState :=
  {| loading := false; error := None; results := JNull;
     initialCapital := 1000000 |}.

Definition setLoading (v : bool) : M World unit :=
  fun w =>
    (Return tt,
     {| app := {| loading := v; error := error (app w);
                  results := results (app w);
                  initialCapital := initialCapital (app w) |};
        sent := sent w |}).

Definition setError (v : option string) : M World unit :=
  fun w =>
    (Return tt,
     {| app := {| loading := loading (app w); error := v;
                  results := results (app w);
                  initialCapital := initialCapital (app w) |};
        sent := sent w |}).

Definition setResults (v : json) : M World unit :=
  fun w =>
    (Return tt,
     {| app := {| loading := loading (app w); error := error (app w);
                  results := v;
                  initialCapital := initialCapital (app w) |};
        sent := sent w |}).

(** Reading a state variable. *)
Definition read {A : Type} (field : AppState -> A) : M World A :=
  fun w => (Return (field (app w)), w).

(** A call into api.js: it acts on the log of requests only. *)
Definition api {A : Type} (m : M (list request) A) : M World A :=
  fun w =>
    match m (sent w) with
    | (r, sent') => (r, {| app := app w; sent := sent' |})
    end.

(** The dashboard is rendered under [results && !loading]. *)
Definition dashboard_shown (st : AppState) : bool :=
  truthy (results st) && negb (loading st).

Section Component.

Variable JSON_stringify : json -> string.
Variable fetch : request -> outcome Response.

(** [async function handleUpload(file)] *)
Definition handleUpload (file : File) : M World unit :=
  (setLoading true ;;
   setError None ;;
   setResults JNull ;;
   finally_
     (try_catch
        (uploadData <- api (uploadFile JSON_stringify fetch file) ;;
         trades <- call (get_prop uploadData "trades") ;;
         capital <- read initialCapital ;;
         analysisData <-
           api (runAnalysis JSON_stringify fetch
                  {| trades := trades;
                     initial_capital := capital;
                     n_simulations := 10000;
                     n_sample_paths := 500 |}) ;;
         setResults analysisData)
        (fun err =>
           setError
             (Some (or_else (message err) "An unexpected error occurred."))))
     (setLoading false))%js.

(** What [uploadFile] and [runAnalysis] resolve or reject with. *)
Definition upload_result (file : File) : outcome json :=
  fst (uploadFile JSON_stringify fetch file []).

Definition analysis_result (payload : AnalysisRequest) : outcome json :=
  fst (runAnalysis JSON_stringify fetch payload []).

(** One run of [handleUpload] from the component state [st], with no
    request sent before. *)
Definition run (file : File) (st : AppState) : World :=
  snd (handleUpload file {| app := st; sent := [] |}).

End Component.

(** The payload [handleUpload] builds from the uploaded trades and the
    capital of the input field. *)
Definition payload_of (uploaded_trades : jsval) (capital : R) : AnalysisRequest :=
  {| trades := uploaded_trades;
     initial_capital := capital;
     n_simulations := 10000;
     n_sample_paths := 500 |}.

(** The world a failed run ends in: the error banner is set, nothing is
    shown, and [reqs] were sent. *)
Definition failed (w0 : World) (e : JsError) (reqs : list request) : World :=
  {| app := {| loading := false;
               error := Some (or_else (message e)
                                      "An unexpected error occurred.");
               results := JNull;
               initialCapital := initialCapital (app w0) |};
     sent := sent w0 ++ reqs |}.

(** The world a successful run ends in. *)
Definition succeeded (w0 : World) (r : json) (reqs : list request) : World :=
  {| app := {| loading := false;
               error := None;
               results := r;
               initialCapital := initialCapital (app w0) |};
     sent := sent w0 ++ reqs |}.

(** What [{results && !loading && (<div className="dashboard">...)}]
    evaluates to: the falsy [results] itself, [false] while loading, or the
    dashboard element. *)
Inductive slot :=
| SlotValue (v : json)
| SlotDashboard.

Definition dashboard_slot (st : AppState) : slot :=
  if truthy (results st) then
    if negb (loading st) then SlotDashboard else SlotValue (JBool false)
  else SlotValue (results st).

(** What React puts on the page for that value: nothing for [null] and the
    booleans, the text of a number, the text of a string (none for the
    empty string), the dashboard for the element. *)
Inductive rendered :=
| Nothing
| NumberText (x : R)
| StringText (s : string)
| Dashboard.

Definition render_slot (v : slot) : rendered :=
  match v with
  | SlotDashboard => Dashboard
  | SlotValue (JNum x) => NumberText x
  | SlotValue (JStr s) => StringText s
  | SlotValue _ => Nothing
  end.

Section Format.

(** [Number.prototype.toFixed]: the text of a number with the given count
    of decimals. *)
Variable toFixed : R -> nat -> string.

(** [function fmtDollar(v)]: [$1.23M], [$456.0k], [$123]. *)
Definition fmtDollar (v : R) : string :=
  let abs := Rabs v in
  let sign := if SummaryTable.ltb v 0 then "-"%string else EmptyString in
  if SummaryTable.geb abs 1e6 then
    (sign ++ "$" ++ toFixed (abs / 1e6) 2 ++ "M")%string
  else if SummaryTable.geb abs 1e3 then
    (sign ++ "$" ++ toFixed (abs / 1e3) 1 ++ "k")%string
  else
    (sign ++ "$" ++ toFixed abs 0)%string.

End Format.

End App.

(** ** EquityChart.jsx *)

Module EquityChart.

(** The [data] prop, [equity_curve] of the response: exit times and
    equity. *)
Record EquityData := { times : list Z; equity : list R }.

(** What the chart draws: the filled trace and the height of the dashed
    reference line. *)
Record Chart := {
  trace_x : list Z;
  trace_y : list R;
  reference : R
}.

(** [export default function EquityChart({ data, initialCapital })]: [null]
    without data; else the equity in millions over the times, and the
    reference line at the capital in millions. *)
Definition EquityChart (data : option EquityData) (initialCapital : R)
  : option Chart :=
  match data with
  | None => None
  | Some d =>
      let equityM := map (fun v => v / 1e6) (equity d) in
      let icM := initialCapital / 1e6 in
      Some {| trace_x := times d; trace_y := equityM; reference := icM |}
  end.

End EquityChart.

(** ** Upload.jsx *)

Module Upload.
Import Js Api.

Definition BORDER_NORMAL : string := "2px dashed #30363d".
Definition BORDER_HOVER : string := "2px dashed #58a6ff".
Definition BORDER_LOADING : string := "2px dashed #21262d".

(** The state of the component: [useState(false)], [useState(null)]. *)
Record UploadState := { dragOver : bool; fileName : option string }.

Definition initial : UploadState := {| dragOver := false; fileName := None |}.

(** What a handler does besides setting state: the calls of [onUpload],
    [e.preventDefault()], and [inputRef.current?.click()]. *)
Record Effects := {
  uploaded : list File;
  defaultPrevented : bool;
  dialogOpened : bool
}.

Definition nothing : Effects :=
  {| uploaded := []; defaultPrevented := false; dialogOpened := false |}.

(** [e.dataTransfer?.files?.[0]] and [e.target.files?.[0]]: [files] is
    [None] when the list is missing; the result is [undefined] ([None]) then
    and when the list is empty. *)
Definition first_file (files : option (list File)) : option File :=
  match files with
  | Some (file :: _) => Some file
  | _ => None
  end.

(** [const handleFile = useCallback((file) => { ... })] *)
Definition handleFile (file : option File) (st : UploadState)
  : UploadState * list File :=
  match file with
  | None => (st, [])
  | Some f =>
      ({| dragOver := dragOver st; fileName := Some (file_name f) |}, [f])
  end.

(** [const onDrop = (e) => { ... }] *)
Definition onDrop (files : option (list File)) (st : UploadState)
  : UploadState * Effects :=
  let st1 := {| dragOver := false; fileName := fileName st |} in
  match first_file files with
  | Some f =>
      let (st2, calls) := handleFile (Some f) st1 in
      (st2, {| uploaded := calls; defaultPrevented := true;
               dialogOpened := false |})
  | None =>
      (st1, {| uploaded := []; defaultPrevented := true;
               dialogOpened := false |})
  end.

(** [const onInputChange = (e) => { ... }] *)
Definition onInputChange (files : option (list File)) (st : UploadState)
  : UploadState * Effects :=
  match first_file files with
  | Some f =>
      let (st2, calls) := handleFile (Some f) st in
      (st2, {| uploaded := calls; defaultPrevented := false;
               dialogOpened := false |})
  | None => (st, nothing)
  end.

(** [const borderColor = loading ? BORDER_LOADING : dragOver ? BORDER_HOVER
    : BORDER_NORMAL] *)
Definition borderColor (loading : bool) (st : UploadState) : string :=
  if loading then BORDER_LOADING
  else if dragOver st then BORDER_HOVER
  else BORDER_NORMAL.

(** The events of the drop zone and of its hidden file input. *)
Inductive event :=
| DragOver
| DragLeave
| Drop (files : option (list File))
| Change (files : option (list File))
| Click.

(** The handlers as the returned element wires them, under the [loading]
    prop: [onDrop] is [undefined] while loading, the input is [disabled]
    while loading (no change event reaches [onInputChange]), and a click
    opens the file dialog only when not loading. *)
Definition dispatch (loading : bool) (ev : event) (st : UploadState)
  : UploadState * Effects :=
  match ev with
  | DragOver =>
      (if loading then st
       else {| dragOver := true; fileName := fileName st |},
       {| uploaded := []; defaultPrevented := true; dialogOpened := false |})
  | DragLeave => ({| dragOver := false; fileName := fileName st |}, nothing)
  | Drop files => if loading then (st, nothing) else onDrop files st
  | Change files => if loading then (st, nothing) else onInputChange files st
  | Click =>
      (st, {| uploaded := []; defaultPrevented := false;
              dialogOpened := negb loading |})
  end.

End Upload.

(** ** The analysis engine

    The engine is the backend of the repository (analytics.py,
    monte_carlo.py, main.py); the client sources do not contain it.  This
    module follows the words of the specification. *)

(** Modelled from the spec: the order of real numbers as a boolean, and the
    sort that gives the order statistics of a sample. *)
Module ROrder <: Orders.TotalLeBool.
Definition t : Type := R.
Definition leb (x y : R) : bool := if Rle_dec x y then true else false.
Lemma leb_total (x y : R) : leb x y = true \/ leb y x = true.
Proof.
  unfold leb. destruct (Rle_dec x y); [now left|].
  destruct (Rle_dec y x); [now right|]. lra.
Qed.
End ROrder.

Module RSort := Mergesort.Sort ROrder.

Module Engine.

(** Modelled from the spec: the TradeRecord of the data model (section 3);
    timestamps are integers. *)
Record TradeRecord := {
  symbol : string;
  entry_time : Z;
  exit_time : Z;
  quantity : R;
  entry_price : R;
  exit_price : R;
  pnl : R;
  notional : R
}.

(** Modelled from the spec: the AnalysisRequest of the request contract
    (section 6). *)
Record AnalysisRequest := {
  trades : list TradeRecord;
  initial_capital : R;
  n_simulations : Z;
  n_sample_paths : Z
}.

(** Modelled from the spec: the InvalidInput error of section 7, with the
    offending parameter. *)
Inductive EngineError :=
| InvalidInput (parameter : string).

(** Modelled from the spec: the metrics of the response contract (section
    6). *)
Record Metrics := {
  total_trades : nat;
  win_rate : R;
  mean_pnl : R;
  median_pnl : R;
  std_pnl : R;
  skewness : R;
  sharpe_ratio : R;
  total_pnl : R;
  max_drawdown : R
}.

(** Modelled from the spec: the DistributionSummary, [mc_distribution] of the
    response contract. *)
Record DistributionSummary := {
  final_equities : list R;
  mean_final : R;
  median_final : R;
  p5 : R;
  p95 : R;
  prob_profit : R;
  prob_large_drawdown : R
}.

(** Modelled from the spec: the PathBands, [mc_paths] of the response
    contract. *)
Record PathBands := {
  median_path : list R;
  p5_path : list R;
  p25_path : list R;
  p75_path : list R;
  p95_path : list R;
  sample_paths : list (list R)
}.

(** Modelled from the spec: [equity_curve] and [notional_data] of the
    response contract. *)
Record EquityCurve := { times : list Z; equity : list R }.

Record NotionalData := { notional_times : list Z; notionals : list R }.

(** Modelled from the spec: the response contract of section 6. *)
Record AnalysisResponse := {
  metrics : Metrics;
  mc_distribution : DistributionSummary;
  mc_paths : PathBands;
  equity_curve : EquityCurve;
  pnl_series : list R;
  notional_data : NotionalData
}.

(** Modelled from the spec: what the engine does, in order; the bootstrap
    allocates the two arrays of shape [(S, n)] (section 3,
    SimulationEnsemble). *)
Inductive step :=
| DescriptiveStatistics
| AllocateEnsemble (rows cols : nat)
| Bootstrap
| Assemble.

(** *** Shared numeric helpers *)

(** Modelled from the spec: the sum of a series. *)
Definition sum (xs : list R) : R := fold_right Rplus 0 xs.

(** Modelled from the spec: the mean of a series. *)
Definition mean_of (xs : list R) : R := sum xs / INR (length xs).

(** Modelled from the spec: the cumulative sum, a single pass with a
    running total. *)
Fixpoint cumsum_from (acc : R) (xs : list R) : list R :=
  match xs with
  | [] => []
  | x :: rest => (acc + x) :: cumsum_from (acc + x) rest
  end.

Definition cumsum (xs : list R) : list R := cumsum_from 0 xs.

(** Modelled from the spec: the equity path of a P&L series, the cumulative
    sum with the initial capital added (sections 4.1 and 4.2, step 3). *)
Definition equity_path (C : R) (p : list R) : list R :=
  map (fun s => C + s) (cumsum p).

(** Modelled from the spec: the percentile by linear interpolation between
    order statistics (section 4.2): for [q] in percent the position is
    [(m - 1) * q / 100] in the sorted sample of size [m]. *)
Definition percentile (q : nat) (xs : list R) : R :=
  let s := RSort.sort xs in
  let m := length s in
  let h := ((m - 1) * q)%nat in
  let lo := (h / 100)%nat in
  let hi := Nat.min (lo + 1) (m - 1) in
  let frac := INR (h mod 100) / 100 in
  nth lo s 0 + frac * (nth hi s 0 - nth lo s 0).

(** Modelled from the spec: the maximum drawdown of an equity path (section
    4.1): the running maximum [R], the drawdown [(R - e) / R], taken as 0
    when [R = 0]. *)
Definition drawdown (peak e : R) : R :=
  if Req_dec_T peak 0 then 0 else (peak - e) / peak.

Fixpoint max_drawdown_from (peak worst : R) (path : list R) : R :=
  match path with
  | [] => worst
  | e :: rest =>
      let peak' := Rmax peak e in
      max_drawdown_from peak' (Rmax worst (drawdown peak' e)) rest
  end.

Definition max_drawdown_of (path : list R) : R :=
  match path with
  | [] => 0
  | e :: rest => max_drawdown_from e 0 rest
  end.

(** Modelled from the spec: the fraction of a sample that passes a test
    ([win_rate], [prob_profit], [prob_large_drawdown]), and the test
    [x > y]. *)
Definition fraction (test : R -> bool) (xs : list R) : R :=
  INR (length (filter test xs)) / INR (length xs).

Definition gtb (x y : R) : bool := if Rgt_dec x y then true else false.

(** *** Descriptive statistics (section 4.1) *)

(** Modelled from the spec: the sample standard deviation, divisor
    [n - 1]. *)
Definition std_of (xs : list R) : R :=
  let m := mean_of xs in
  sqrt (sum (map (fun x => (x - m) * (x - m)) xs) / (INR (length xs) - 1)).

(** Modelled from the spec: the metrics of the historical series. *)
Definition describe (C : R) (p : list R) : Metrics :=
  let m := mean_of p in
  let sd := std_of p in
  {| total_trades := length p;
     win_rate := fraction (fun x => gtb x 0) p;
     mean_pnl := m;
     median_pnl := percentile 50 p;
     std_pnl := sd;
     skewness :=
       if Req_dec_T sd 0 then 0
       else sum (map (fun x => ((x - m) / sd) * ((x - m) / sd) * ((x - m) / sd)) p)
            / INR (length p);
     sharpe_ratio := if Req_dec_T sd 0 then 0 else m / sd;
     total_pnl := sum p;
     max_drawdown := max_drawdown_of (equity_path C p) |}.

(** *** Bootstrap simulation (section 4.2) *)

Section Bootstrap.

(** Modelled from the spec: the injectable random index source (section 9):
    [rng i j] is the draw for position [j] of simulation row [i]; it is
    reduced into [{0, ..., n-1}]. *)
Variable rng : nat -> nat -> nat.

(** Modelled from the spec: steps 1 and 2, row [i] of the ensemble and the
    ensemble of [rows] rows. *)
Definition resample (p : list R) (i : nat) : list R :=
  map (fun j => nth (rng i j mod length p) p 0) (seq 0 (length p)).

Definition ensemble (p : list R) (rows : nat) : list (list R) :=
  map (resample p) (seq 0 rows).

(** Modelled from the spec: step 3, the simulated equity paths. *)
Definition simulate (C : R) (p : list R) (rows : nat) : list (list R) :=
  map (equity_path C) (ensemble p rows).

(** Modelled from the spec: step 4, the final equity of a path, its last
    element. *)
Definition final_equity (C : R) (path : list R) : R := last path C.

(** Modelled from the spec: step 5, the statistics of the final
    equities. *)
Definition summarize (C : R) (paths : list (list R)) : DistributionSummary :=
  let finals := map (final_equity C) paths in
  {| final_equities := finals;
     mean_final := mean_of finals;
     median_final := percentile 50 finals;
     p5 := percentile 5 finals;
     p95 := percentile 95 finals;
     prob_profit := fraction (fun e => gtb e C) finals;
     prob_large_drawdown :=
       fraction (fun d => gtb d 0.5) (map max_drawdown_of paths) |}.

(** Modelled from the spec: step 6, the values of all paths at time index
    [j], and the band of a percentile over the time axis. *)
Definition column (j : nat) (paths : list (list R)) : list R :=
  map (fun path => nth j path 0) paths.

Definition band (q : nat) (n : nat) (paths : list (list R)) : list R :=
  map (fun j => percentile q (column j paths)) (seq 0 n).

(** Modelled from the spec: steps 6 and 7, the five bands and the first [M]
    paths. *)
Definition bands (n M : nat) (paths : list (list R)) : PathBands :=
  {| median_path := band 50 n paths;
     p5_path := band 5 n paths;
     p25_path := band 25 n paths;
     p75_path := band 75 n paths;
     p95_path := band 95 n paths;
     sample_paths := firstn M paths |}.

(** *** The engine *)

(** Modelled from the spec: the InvalidInput conditions of section 7, checked
    in the order the spec lists them. *)
Definition validate (req : AnalysisRequest) : option EngineError :=
  match trades req with
  | [] => Some (InvalidInput "trades")
  | _ :: _ =>
      if Rle_dec (initial_capital req) 0 then
        Some (InvalidInput "initial_capital")
      else if (n_simulations req <=? 0)%Z then
        Some (InvalidInput "n_simulations")
      else if (n_sample_paths req <=? 0)%Z then
        Some (InvalidInput "n_sample_paths")
      else if (n_simulations req <? n_sample_paths req)%Z then
        Some (InvalidInput "n_sample_paths")
      else None
  end.

(** Modelled from the spec: the result assembler (section 4.3). *)
Definition respond (req : AnalysisRequest) : AnalysisResponse :=
  let p := map pnl (trades req) in
  let C := initial_capital req in
  let paths := simulate C p (Z.to_nat (n_simulations req)) in
  {| metrics := describe C p;
     mc_distribution := summarize C paths;
     mc_paths := bands (length p) (Z.to_nat (n_sample_paths req)) paths;
     equity_curve :=
       {| times := map exit_time (trades req); equity := equity_path C p |};
     pnl_series := p;
     notional_data :=
       {| notional_times := map exit_time (trades req);
          notionals := map notional (trades req) |} |}.

(** Modelled from the spec: one analysis request (sections 2 and 7): the
    input is validated first; an invalid request ends with the error and no
    step taken. *)
Definition analyze (req : AnalysisRequest)
  : (EngineError + AnalysisResponse) * list step :=
  match validate req with
  | Some err => (inl err, [])
  | None =>
      let rows := Z.to_nat (n_simulations req) in
      let n := length (trades req) in
      (inr (respond req),
       [DescriptiveStatistics; AllocateEnsemble rows n; AllocateEnsemble rows n;
        Bootstrap; Assemble])
  end.

End Bootstrap.

(** Modelled from the spec: the conditions of InvalidInput, as section 7
    words them. *)
Definition invalid (req : AnalysisRequest) : Prop :=
  trades req = [] \/
  initial_capital req <= 0 \/
  (n_simulations req <= 0)%Z \/
  (n_sample_paths req <= 0)%Z \/
  (n_sample_paths req > n_simulations req)%Z.

End Engine.

(** ** Sample inputs *)

Module Sample.
Import Js Api App.
Local Open Scope string_scope.

Definition file : File :=
  {| file_name := "trades.csv"; file_content := "Symbol,Quantity,Price" |}.

Definition three_trades : json :=
  JArr [JObj [("symbol", JStr "SPY"); ("pnl", JNum 100)];
        JObj [("symbol", JStr "SPY"); ("pnl", JNum (-50))];
        JObj [("symbol", JStr "QQQ"); ("pnl", JNum 200)]].

Definition upload_body : json :=
  JObj [("trades", three_trades); ("total_trades", JNum 3);
        ("symbols", JArr [JStr "SPY"; JStr "QQQ"])].

Definition analysis_body : json :=
  JObj [("pnl_series", JArr [JNum 100; JNum (-50); JNum 200])].

Definition ok_response (body : json) : Response :=
  {| ok := true; statusText := "OK"; res_json := Return body |}.

(** A server that answers both requests. *)
Definition server (req : request) : outcome Response :=
  match req with
  | PostUpload _ => Return (ok_response upload_body)
  | PostAnalyze _ => Return (ok_response analysis_body)
  end.

(** A server that refuses the upload with a FastAPI error body. *)
Definition refused : Response :=
  {| ok := false; statusText := "Bad Request";
     res_json := Return (JObj [("detail", JStr "Could not parse CSV")]) |}.

Definition refusing_server (req : request) : outcome Response :=
  match req with
  | PostUpload _ => Return refused
  | PostAnalyze _ => Return (ok_response analysis_body)
  end.

(** An error response whose JSON body has no [detail] field. *)
Definition no_detail : Response :=
  {| ok := false; statusText := "Bad Gateway";
     res_json := Return (JObj [("error", JStr "upstream timed out")]) |}.

(** An [ok] response whose body is not JSON. *)
Definition not_json : Response :=
  {| ok := true; statusText := "OK";
     res_json := Throw {| message := "Unexpected token < in JSON" |} |}.

(** A serializer for the runs below; no run calls it. *)
Definition serializer (j : json) : string := "null".

(** Three trades with P&L [+100, -50, +200]. *)
Definition trade (p : R) (t : Z) : Engine.TradeRecord :=
  {| Engine.symbol := "SPY"; Engine.entry_time := t - 1;
     Engine.exit_time := t; Engine.quantity := 1;
     Engine.entry_price := 100; Engine.exit_price := 100 + p;
     Engine.pnl := p; Engine.notional := 100 |}.

Definition engine_request : Engine.AnalysisRequest :=
  {| Engine.trades := [trade 100 1; trade (-50) 2; trade 200 3];
     Engine.initial_capital := 1000;
     Engine.n_simulations := 4;
     Engine.n_sample_paths := 2 |}.

(** The same request with no simulation. *)
Definition no_simulation : Engine.AnalysisRequest :=
  {| Engine.trades := [trade 100 1; trade (-50) 2; trade 200 3];
     Engine.initial_capital := 1000;
     Engine.n_simulations := 0;
     Engine.n_sample_paths := 2 |}.

(** A fixed table of draws. *)
Definition draws (i j : nat) : nat := (i + 2 * j)%nat.

(** The steps of an answered request with 4 simulations of 3 trades. *)
Definition engine_steps : list Engine.step :=
  [Engine.DescriptiveStatistics; Engine.AllocateEnsemble 4 3;
   Engine.AllocateEnsemble 4 3; Engine.Bootstrap; Engine.Assemble].

(** A server that answers the upload with an error body without [detail]. *)
Definition gateway_server (req : request) : outcome Response :=
  match req with
  | PostUpload _ => Return no_detail
  | PostAnalyze _ => Return (ok_response analysis_body)
  end.

(** A server whose upload answer has no [trades] field. *)
Definition tradeless_server (req : request) : outcome Response :=
  match req with
  | PostUpload _ => Return (ok_response (JObj [("total_trades", JNum 0)]))
  | PostAnalyze _ => Return (ok_response analysis_body)
  end.

(** A server whose analysis answer is the JSON value [null]. *)
Definition null_server (req : request) : outcome Response :=
  match req with
  | PostUpload _ => Return (ok_response upload_body)
  | PostAnalyze _ => Return (ok_response JNull)
  end.

(** A server whose analysis answer is the number [0]. *)
Definition zero_server (req : request) : outcome Response :=
  match req with
  | PostUpload _ => Return (ok_response upload_body)
  | PostAnalyze _ => Return (ok_response (JNum 0))
  end.

(** A network that is down. *)
Definition offline (req : request) : outcome Response :=
  Throw {| message := "Failed to fetch" |}.

(** Metrics of a profitable history of 100 trades. *)
Definition metrics : SummaryTable.Metrics :=
  {| SummaryTable.total_trades := 100;
     SummaryTable.win_rate := 0.6;
     SummaryTable.mean_pnl := 500;
     SummaryTable.median_pnl := 400;
     SummaryTable.std_pnl := 2000;
     SummaryTable.skewness := 0;
     SummaryTable.sharpe_ratio := 0.25;
     SummaryTable.total_pnl := 50000;
     SummaryTable.max_drawdown := 0.1 |}.

(** Metrics of a history without deviation. *)
Definition flat_metrics : SummaryTable.Metrics :=
  {| SummaryTable.total_trades := 100;
     SummaryTable.win_rate := 1;
     SummaryTable.mean_pnl := 500;
     SummaryTable.median_pnl := 500;
     SummaryTable.std_pnl := 0;
     SummaryTable.skewness := 0;
     SummaryTable.sharpe_ratio := 0;
     SummaryTable.total_pnl := 50000;
     SummaryTable.max_drawdown := 0 |}.

Definition distribution : SummaryTable.Distribution :=
  {| SummaryTable.mean_final := 1050000;
     SummaryTable.median_final := 1048000;
     SummaryTable.dist_p5 := 1010000;
     SummaryTable.dist_p95 := 1090000;
     SummaryTable.prob_profit := 0.995;
     SummaryTable.prob_large_drawdown := 0 |}.

(** Two dropped files. *)
Definition second_file : File :=
  {| file_name := "other.csv"; file_content := "Symbol,Quantity,Price" |}.

(** A text for [toFixed]; the properties of [fmtDollar] hold for every
    one. *)
Definition fixed (v : R) (digits : nat) : string := "0".

(** Two band curves. *)
Definition lower_band : list R := [900000; 950000].
Definition upper_band : list R := [1100000; 1200000].

End Sample.

(** ** Notions used in the properties *)

(** The segment one path contributes to [fanX] and to [fanY]. *)
Definition segmentX (path : list R) : list (option nat) :=
  map Some (seq 0 (length path)) ++ [None].

Definition segmentY (path : list R) : list (option R) :=
  map (fun v => Some (v / 1e6)) path ++ [None].

(** A list in ascending order, by index. *)
Definition ascending (s : list R) : Prop :=
  forall i j, (i <= j < length s)%nat -> nth i s 0 <= nth j s 0.

(** The interpolation of [percentile], at position [h / 100] of the sorted
    sample [s]. *)
Definition interpolate (s : list R) (h : nat) : R :=
  let lo := (h / 100)%nat in
  let hi := Nat.min (lo + 1) (length s - 1) in
  nth lo s 0 + INR (h mod 100) / 100 * (nth hi s 0 - nth lo s 0).


(** The message of the [Error] a response that is not [ok] is turned
    into. *)
Definition error_message (JSON_stringify : Js.json -> string)
  (res : Api.Response) : string :=
  match Api.res_json res with
  | Js.Return (Js.JObj fields) =>
      match Js.lookup "detail" fields with
      | Some (Js.JStr s) => s
      | Some d => JSON_stringify d
      | None => EmptyString
      end
  | Js.Return Js.JNull | Js.Throw _ => Api.statusText res
  | Js.Return _ => EmptyString
  end.

(** [v === null] on an array entry, and an array without its [null]
    entries. *)
Definition is_null {A : Type} (v : option A) : bool :=
  match v with
  | None => true
  | Some _ => false
  end.

Fixpoint omit_nulls {A : Type} (l : list (option A)) : list A :=
  match l with
  | [] => []
  | Some v :: rest => v :: omit_nulls rest
  | None :: rest => omit_nulls rest
  end.

(** The labels of [RiskBadge] from the best to the worst. *)
Definition severity (label : string) : nat :=
  if String.eqb label "LOW" then 0
  else if String.eqb label "MEDIUM-LOW" then 1
  else if String.eqb label "MEDIUM" then 2
  else 3.

(** The polynomial tail of [normalCDF], as a function of [t]. *)
Definition tail_poly (t : R) : R :=
  t * (0.3193815 + t * (-0.3565638 + t * (1.7814779
         + t * (-1.8212560 + t * 1.3302744)))).

(* ================================================================= *)
(** * Part II: the properties *)
(* ================================================================= *)

Import SummaryTable.

(** ** The risk badge *)

Lemma geb_true (x y : R) : geb x y = true <-> x >= y.
Proof.
  unfold geb. destruct (Rge_dec x y); split; intros; try easy.
Qed.

Lemma ltb_true (x y : R) : ltb x y = true <-> x < y.
Proof.
  unfold ltb. destruct (Rlt_dec x y); split; intros; try easy.
Qed.

Lemma geb_false (x y : R) : geb x y = false <-> ~ x >= y.
Proof.
  unfold geb. destruct (Rge_dec x y); split; intros; try easy.
Qed.

Lemma ltb_false (x y : R) : ltb x y = false <-> ~ x < y.
Proof.
  unfold ltb. destruct (Rlt_dec x y); split; intros; try easy.
Qed.

Lemma and_test_true (x a y b : R) :
  geb x a && ltb y b = true <-> x >= a /\ y < b.
Proof.
  rewrite andb_true_iff, geb_true, ltb_true. tauto.
Qed.

Lemma and_test_false (x a y b : R) :
  geb x a && ltb y b = false <-> ~ (x >= a /\ y < b).
Proof.
  rewrite <- and_test_true. destruct (geb x a && ltb y b); split; intros H;
    easy.
Qed.

(** C10: [RiskBadge] gives every pair of probabilities one of the four
    labels, decided by the cascade: LOW exactly when the profit probability
    is at least 0.99 and the drawdown probability below 0.01; failing that,
    MEDIUM-LOW exactly when they are at least 0.90 and below 0.05; failing
    that, MEDIUM exactly when the profit probability is at least 0.70; and
    HIGH in every other case. *)
Theorem RiskBadge_label (prob_profit prob_drawdown : R) :
  let l := label (RiskBadge prob_profit prob_drawdown) in
  let low := prob_profit >= 0.99 /\ prob_drawdown < 0.01 in
  let medium_low := prob_profit >= 0.90 /\ prob_drawdown < 0.05 in
  let medium := prob_profit >= 0.70 in
  In l ["LOW"; "MEDIUM-LOW"; "MEDIUM"; "HIGH"]%string /\
  (l = "LOW"%string <-> low) /\
  (l = "MEDIUM-LOW"%string <-> ~ low /\ medium_low) /\
  (l = "MEDIUM"%string <-> ~ low /\ ~ medium_low /\ medium) /\
  (l = "HIGH"%string <-> ~ low /\ ~ medium_low /\ ~ medium).
Proof.
  cbv zeta. unfold RiskBadge.
  destruct (geb prob_profit 0.99 && ltb prob_drawdown 0.01) eqn:E1.
  { apply and_test_true in E1. cbn [label In].
    repeat split; intros; try tauto; try discriminate. }
  apply and_test_false in E1.
  destruct (geb prob_profit 0.90 && ltb prob_drawdown 0.05) eqn:E2.
  { apply and_test_true in E2. cbn [label In].
    repeat split; intros; try tauto; try discriminate. }
  apply and_test_false in E2.
  destruct (geb prob_profit 0.70) eqn:E3.
  { apply geb_true in E3. cbn [label In].
    repeat split; intros; try tauto; try discriminate. }
  apply geb_false in E3. cbn [label In].
  repeat split; intros; try tauto; try discriminate.
Qed.

(** The badge at sample probabilities, the boundaries included. *)
Ltac decide_tests :=
  unfold RiskBadge, geb, ltb;
  repeat match goal with
  | |- context [Rge_dec ?a ?b] =>
      destruct (Rge_dec a b); [try (exfalso; lra) | try (exfalso; lra)]
  | |- context [Rlt_dec ?a ?b] =>
      destruct (Rlt_dec a b); [try (exfalso; lra) | try (exfalso; lra)]
  end;
  cbn; try reflexivity.

Lemma RiskBadge_low : label (RiskBadge 0.995 0.005) = "LOW"%string.
Proof. decide_tests. Qed.

Lemma RiskBadge_boundary : label (RiskBadge 0.99 0.01) = "MEDIUM-LOW"%string.
Proof. decide_tests. Qed.

Lemma RiskBadge_medium : label (RiskBadge 0.95 0.05) = "MEDIUM"%string.
Proof. decide_tests. Qed.

Lemma RiskBadge_high : label (RiskBadge 0.69 0) = "HIGH"%string.
Proof. decide_tests. Qed.

(** ** The normal approximation of the scenario rows *)

Lemma geb_pos (x : R) : 0 < x -> geb x 0 = true /\ geb (- x) 0 = false.
Proof.
  intros Hx. split.
  - apply geb_true. lra.
  - apply geb_false. lra.
Qed.

(** C8: for every real [x > 0], [normalCDF x + normalCDF (-x) = 1]: the
    tail [p] is the same at [x] and [-x], one branch returns [1 - p] and the
    other [p]. *)
Theorem normalCDF_reflection (x : R) :
  0 < x -> normalCDF x + normalCDF (- x) = 1.
Proof.
  intros Hx. unfold normalCDF.
  destruct (geb_pos x Hx) as [-> ->].
  rewrite Rabs_Ropp.
  replace (- - x * - x / 2) with (- x * x / 2) by lra.
  ring.
Qed.

Lemma normalCDF_reflection_witness :
  0 < 1 /\ normalCDF 1 + normalCDF (- 1) = 1.
Proof.
  split; [lra | apply (normalCDF_reflection 1); lra].
Defined.

(** At [0] both calls take the branch [1 - p], and the polynomial does not
    give one half exactly: the identity needs [x > 0]. *)
Lemma normalCDF_zero : normalCDF 0 + normalCDF (- 0) <> 1.
Proof.
  rewrite Ropp_0. unfold normalCDF.
  replace (geb 0 0) with true by (symmetry; apply geb_true; lra).
  rewrite Rabs_R0. replace (- 0 * 0 / 2) with 0 by lra. rewrite exp_0.
  lra.
Qed.

(** [normalCDF] spelled out: the density [0.3989422820 exp(-x^2 / 2)]
    times the polynomial of Abramowitz and Stegun in
    [t = 1 / (1 + 0.2316419 |x|)], taken from 1 for [x >= 0]. *)
Lemma normalCDF_formula (x : R) :
  normalCDF x =
  let t := 1 / (1 + 0.2316419 * Rabs x) in
  let p := 0.3989422820 * exp (- x * x / 2) * t
           * (0.3193815 + t * (-0.3565638 + t * (1.7814779
                + t * (-1.8212560 + t * 1.3302744)))) in
  if Rle_dec 0 x then 1 - p else p.
Proof.
  unfold normalCDF, geb. cbv zeta.
  destruct (Rge_dec x 0), (Rle_dec 0 x); try reflexivity; lra.
Qed.

(** The tail of [normalCDF] lies between 0 and one half, so its value is
    a probability. *)
Lemma normalCDF_probability (x : R) : 0 <= normalCDF x <= 1.
Proof.
  pose proof (Rabs_pos x) as Ha.
  assert (Ht : 0 < 1 / (1 + 0.2316419 * Rabs x) <= 1).
  { split.
    - apply Rdiv_lt_0_compat; lra.
    - assert (Hd : 1 <= 1 + 0.2316419 * Rabs x) by lra.
      pose proof (Rinv_le_contravar 1 _ Rlt_0_1 Hd) as Hi.
      rewrite Rinv_1 in Hi. unfold Rdiv. lra. }
  pose proof (exp_pos (- x * x / 2)) as He.
  assert (He1 : exp (- x * x / 2) <= 1).
  { assert (Hx : - x * x / 2 <= 0) by nra.
    destruct Hx as [Hx|Hx]; [|rewrite Hx, exp_0; lra].
    left. rewrite <- exp_0. now apply exp_increasing. }
  unfold normalCDF. cbv zeta.
  set (t := 1 / (1 + 0.2316419 * Rabs x)) in *.
  set (e := exp (- x * x / 2)) in *.
  assert (Hq : 0 <= 0.3193815 + t * (-0.3565638 + t * (1.7814779
                      + t * (-1.8212560 + t * 1.3302744))) <= 2.2) by nra.
  set (q := 0.3193815 + _) in *.
  assert (Hp : 0 <= 0.3989422820 * e * t * q <= 1).
  { assert (0 <= e * t <= 1) by nra. split; nra. }
  destruct (geb x 0); lra.
Qed.

(** C4: a derived scenario row is a closed form of the metrics, the initial
    capital and the mean-scale factor alone: the mean is
    [initial_capital + total_trades * (mean_pnl * scale)], the final
    deviation [sqrt total_trades * std_pnl], the 5th and 95th percentiles
    the mean minus and plus 1.645 deviations, and the two probabilities,
    both between 0 and 1, the normal-CDF approximation
    [1 - 0.3989422820 exp(-z^2 / 2) t (0.3193815 + t (-0.3565638 + ...))],
    [t = 1 / (1 + 0.2316419 |z|)] (the tail itself for [z < 0]), at z-scores
    whose denominator is the deviation clamped from below by 1. *)
Theorem deriveRow_closed_form
  (metrics : Metrics) (initialCapital : R) (label : string) (meanScale : R) :
  let row := deriveRow metrics initialCapital label meanScale in
  let trades := INR (total_trades metrics) in
  let std_final := sqrt trades * std_pnl metrics in
  let approximation := fun z : R =>
    let t := 1 / (1 + 0.2316419 * Rabs z) in
    let p := 0.3989422820 * exp (- z * z / 2) * t
             * (0.3193815 + t * (-0.3565638 + t * (1.7814779
                  + t * (-1.8212560 + t * 1.3302744)))) in
    if Rle_dec 0 z then 1 - p else p in
  mean row = initialCapital + trades * (mean_pnl metrics * meanScale) /\
  p5 row = mean row - 1.645 * std_final /\
  p95 row = mean row + 1.645 * std_final /\
  probProfit row =
    approximation ((mean row - initialCapital) / Rmax std_final 1) /\
  probDD row =
    1 - approximation ((-0.5 * initialCapital - (mean row - initialCapital))
                       / Rmax std_final 1) /\
  1 <= Rmax std_final 1 /\
  0 <= probProfit row <= 1 /\ 0 <= probDD row <= 1.
Proof.
  cbv zeta.
  unfold deriveRow, SummaryTable.n, ic, std.
  cbn [mean p5 p95 probProfit probDD].
  split; [reflexivity|]. split; [reflexivity|]. split; [reflexivity|].
  split; [apply normalCDF_formula|].
  split; [f_equal; apply normalCDF_formula|].
  split; [apply Rmax_r|].
  split.
  - apply normalCDF_probability.
  - match goal with |- context [normalCDF ?z] =>
      pose proof (normalCDF_probability z) end. lra.
Qed.

(** The z-score of the profit probability, spelled out on the inputs. *)
Lemma deriveRow_probProfit
  (metrics : Metrics) (initialCapital : R) (label : string) (meanScale : R) :
  probProfit (deriveRow metrics initialCapital label meanScale) =
  normalCDF (INR (total_trades metrics) * (mean_pnl metrics * meanScale)
             / Rmax (sqrt (INR (total_trades metrics)) * std_pnl metrics) 1).
Proof.
  unfold deriveRow, SummaryTable.n, ic, std. cbn [probProfit].
  f_equal. f_equal. ring.
Qed.

(** No field of a derived row reads anything of the metrics but the trade
    count, the mean and the deviation of the P&L. *)
Lemma deriveRow_reads (m1 m2 : Metrics) (initialCapital : R)
  (label : string) (meanScale : R) :
  total_trades m1 = total_trades m2 ->
  mean_pnl m1 = mean_pnl m2 ->
  std_pnl m1 = std_pnl m2 ->
  deriveRow m1 initialCapital label meanScale =
  deriveRow m2 initialCapital label meanScale.
Proof.
  intros Hn Hm Hs. unfold deriveRow, SummaryTable.n, ic, std.
  rewrite Hn, Hm, Hs. reflexivity.
Qed.

(** ** The fan of sample paths *)

Import FanChart.

Lemma fold_push {A B : Type} (f : A -> B) (l : list A) (out : list B) :
  fold_left (fun out v => push out (f v)) l out = out ++ map f l.
Proof.
  revert out. induction l as [|v l IH]; intros out; cbn.
  - now rewrite app_nil_r.
  - rewrite IH. unfold push. now rewrite <- app_assoc.
Qed.

Lemma fold_segments {A B : Type} (step : list B -> A -> list B)
  (seg : A -> list B) (paths : list A) (out : list B) :
  (forall out path, step out path = out ++ seg path) ->
  fold_left step paths out = out ++ concat (map seg paths).
Proof.
  intros Hstep. revert out.
  induction paths as [|path paths IH]; intros out; cbn.
  - now rewrite app_nil_r.
  - rewrite IH, Hstep. now rewrite <- app_assoc.
Qed.

Lemma fanX_segments (sample_paths : list (list R)) :
  fanX sample_paths = concat (map segmentX sample_paths).
Proof.
  unfold fanX.
  rewrite (fold_segments _ segmentX); [reflexivity|].
  intros out path. rewrite fold_push. unfold push, segmentX.
  now rewrite <- app_assoc.
Qed.

Lemma fanY_segments (sample_paths : list (list R)) :
  fanY sample_paths = concat (map segmentY sample_paths).
Proof.
  unfold fanY.
  rewrite (fold_segments _ segmentY); [reflexivity|].
  intros out path. rewrite fold_push. unfold push, segmentY.
  now rewrite <- app_assoc.
Qed.

Lemma length_segments {A B : Type} (seg : A -> list B) (len : A -> nat)
  (paths : list A) :
  (forall path, length (seg path) = len path) ->
  length (concat (map seg paths)) = list_sum (map len paths).
Proof.
  intros Hseg. induction paths as [|path paths IH]; cbn.
  - reflexivity.
  - now rewrite length_app, Hseg, IH.
Qed.

Lemma length_segmentX (path : list R) :
  length (segmentX path) = (length path + 1)%nat.
Proof.
  unfold segmentX. now rewrite length_app, length_map, length_seq.
Qed.

Lemma length_segmentY (path : list R) :
  length (segmentY path) = (length path + 1)%nat.
Proof.
  unfold segmentY. now rewrite length_app, length_map.
Qed.

(** C9: [fanX] and [fanY] have the same length, the sum over the paths of
    the path's length plus one, and each is the concatenation, path by path,
    of the path's points (all non-null) followed by one [null]. *)
Theorem fan_arrays (sample_paths : list (list R)) :
  length (fanX sample_paths) = length (fanY sample_paths) /\
  length (fanX sample_paths) =
    list_sum (map (fun path => (length path + 1)%nat) sample_paths) /\
  fanX sample_paths =
    concat (map (fun path => map Some (seq 0 (length path)) ++ [None])
                sample_paths) /\
  fanY sample_paths =
    concat (map (fun path => map (fun v => Some (v / 1e6)) path ++ [None])
                sample_paths).
Proof.
  rewrite fanX_segments, fanY_segments.
  rewrite (length_segments segmentX _ _ length_segmentX).
  rewrite (length_segments segmentY _ _ length_segmentY).
  repeat split.
Qed.

(** ** Responses of the server *)

Import Js Api App.

Lemma handleResponse_not_ok (JSON_stringify : json -> string) (res : Response) :
  ok res = false ->
  handleResponse JSON_stringify res =
  Throw {| message := error_message JSON_stringify res |}.
Proof.
  intros Hok. unfold handleResponse, error_message. rewrite Hok. cbn [negb].
  destruct (res_json res) as [j|e]; [|reflexivity].
  destruct j as [| b | x | s | items | fields]; try reflexivity.
  cbn. destruct (lookup "detail" fields) as [d|]; [|reflexivity].
  destruct d; reflexivity.
Qed.

(** C6 (as the code has it): a response that is not [ok] always makes
    [handleResponse] reject, with an [Error] whose message is the body's
    [detail] when that is a string, its JSON text when it is another value,
    the status text when the body is not JSON or is [null], and the empty
    string when the body is JSON without a [detail]; an [ok] response gives
    what [res.json()] gives.  [uploadFile] and [runAnalysis] end as
    [handleResponse] ends on the response they fetched. *)
Theorem handleResponse_outcome (JSON_stringify : json -> string) (res : Response) :
  (ok res = false ->
   handleResponse JSON_stringify res =
   Throw {| message :=
     match res_json res with
     | Return (JObj fields) =>
         match lookup "detail" fields with
         | Some (JStr s) => s
         | Some d => JSON_stringify d
         | None => EmptyString
         end
     | Return JNull | Throw _ => statusText res
     | Return _ => EmptyString
     end |}) /\
  (ok res = true -> handleResponse JSON_stringify res = res_json res) /\
  (forall fetch file log,
     fetch (PostUpload file) = Return res ->
     fst (uploadFile JSON_stringify fetch file log) =
     handleResponse JSON_stringify res) /\
  (forall fetch payload log,
     fetch (PostAnalyze payload) = Return res ->
     fst (runAnalysis JSON_stringify fetch payload log) =
     handleResponse JSON_stringify res).
Proof.
  repeat split.
  - apply handleResponse_not_ok.
  - intros Hok. unfold handleResponse. now rewrite Hok.
  - intros fetch file log Hres.
    unfold uploadFile, bind, send, call. now rewrite Hres.
  - intros fetch payload log Hres.
    unfold runAnalysis, bind, send, call. now rewrite Hres.
Qed.

Lemma handleResponse_outcome_witness :
  ok Sample.refused = false /\
  handleResponse Sample.serializer Sample.refused =
  Throw {| message := "Could not parse CSV" |}.
Proof.
  split; [reflexivity|].
  exact (proj1 (handleResponse_outcome Sample.serializer Sample.refused)
               eq_refl).
Defined.

(** A response that is not [ok] never yields a result. *)
Lemma handleResponse_rejects (JSON_stringify : json -> string) (res : Response) :
  ok res = false ->
  forall j, handleResponse JSON_stringify res <> Return j.
Proof.
  intros Hok j. rewrite (handleResponse_not_ok JSON_stringify res Hok).
  discriminate.
Qed.

(** A FastAPI validation error: [detail] is a list, and the message is its
    JSON text. *)
Lemma handleResponse_validation_error (JSON_stringify : json -> string)
  (statusText : string) (errors : list json) :
  handleResponse JSON_stringify
    {| ok := false; statusText := statusText;
       res_json := Return (JObj [("detail"%string, JArr errors)]) |} =
  Throw {| message := JSON_stringify (JArr errors) |}.
Proof. reflexivity. Qed.

(** An error page that is not JSON: the message is the status text. *)
Lemma handleResponse_not_json (JSON_stringify : json -> string)
  (statusText : string) (e : JsError) :
  handleResponse JSON_stringify
    {| ok := false; statusText := statusText; res_json := Throw e |} =
  Throw {| message := statusText |}.
Proof. reflexivity. Qed.

(** An error response with a JSON body that has no [detail]: the message is
    empty, neither a detail nor the status text. *)
Lemma handleResponse_no_detail :
  ok Sample.no_detail = false /\
  then_ (res_json Sample.no_detail) (fun j => get_prop j "detail") = Return None /\
  statusText Sample.no_detail = "Bad Gateway"%string /\
  (forall JSON_stringify,
     handleResponse JSON_stringify Sample.no_detail =
     Throw {| message := EmptyString |}) /\
  EmptyString <> statusText Sample.no_detail.
Proof.
  repeat split; discriminate.
Qed.

(** An [ok] response whose body is not JSON: [handleResponse] rejects. *)
Lemma handleResponse_ok_not_json (JSON_stringify : json -> string) :
  ok Sample.not_json = true /\
  handleResponse JSON_stringify Sample.not_json =
  Throw {| message := "Unexpected token < in JSON" |}.
Proof. split; reflexivity. Qed.

(** ** One run of [handleUpload] *)

Section Runs.

Variable JSON_stringify : json -> string.
Variable fetch : request -> outcome Response.

(** The four ways a run ends. *)
Lemma handleUpload_run (file : File) (w0 : World) :
  handleUpload JSON_stringify fetch file w0 =
  (Return tt,
   match upload_result JSON_stringify fetch file with
   | Throw e => failed w0 e [PostUpload file]
   | Return uploadData =>
       match get_prop uploadData "trades" with
       | Throw e => failed w0 e [PostUpload file]
       | Return t =>
           let payload := payload_of t (initialCapital (app w0)) in
           match analysis_result JSON_stringify fetch payload with
           | Throw e => failed w0 e [PostUpload file; PostAnalyze payload]
           | Return r =>
               succeeded w0 r [PostUpload file; PostAnalyze payload]
           end
       end
   end).
Proof.
  unfold handleUpload, upload_result, analysis_result, uploadFile,
    runAnalysis, failed, succeeded, payload_of.
  unfold bind, finally_, try_catch, api, call, send, read, setLoading,
    setError, setResults.
  cbn.
  destruct (fetch (PostUpload file)) as [res|e]; cbn; [|reflexivity].
  destruct (handleResponse JSON_stringify res) as [uploadData|e]; cbn;
    [|reflexivity].
  destruct (get_prop uploadData "trades") as [t|e]; cbn; [|reflexivity].
  destruct (fetch _) as [res'|e]; cbn; [|now rewrite <- app_assoc].
  destruct (handleResponse JSON_stringify res') as [r|e]; cbn;
    now rewrite <- app_assoc.
Qed.

End Runs.

Lemma or_else_default (a : string) :
  or_else a "An unexpected error occurred." <> EmptyString.
Proof. destruct a; discriminate. Qed.

(** An analysis request in the log of a run is the second and last request
    of that run, built from the trades of the upload that succeeded. *)
Lemma analysis_request_of_run (JSON_stringify : json -> string)
  (fetch : request -> outcome Response) (file : File) (st : AppState)
  (payload : AnalysisRequest) :
  In (PostAnalyze payload) (sent (run JSON_stringify fetch file st)) ->
  exists uploadData t,
    upload_result JSON_stringify fetch file = Return uploadData /\
    get_prop uploadData "trades" = Return t /\
    payload = payload_of t (initialCapital st) /\
    sent (run JSON_stringify fetch file st) =
      [PostUpload file; PostAnalyze payload].
Proof.
  unfold run. rewrite handleUpload_run. cbn [snd app sent].
  destruct (upload_result JSON_stringify fetch file) as [uploadData|e] eqn:Hup.
  2:{ cbn. intros [H|[]]. discriminate. }
  destruct (get_prop uploadData "trades") as [t|e] eqn:Ht.
  2:{ cbn. intros [H|[]]. discriminate. }
  cbv zeta. intros Hin.
  assert (Hp : payload = payload_of t (initialCapital st)).
  { destruct (analysis_result _ _ _); cbn in Hin;
      destruct Hin as [H|[H|[]]]; congruence. }
  subst payload. exists uploadData, t.
  split; [reflexivity|]. split; [exact Ht|]. split; [reflexivity|].
  destruct (analysis_result _ _ _); reflexivity.
Qed.

(** C5: every analysis request a run of [handleUpload] sends has
    [n_simulations = 10000] and [n_sample_paths = 500], hence
    [n_sample_paths <= n_simulations]. *)
Theorem handleUpload_counts (JSON_stringify : json -> string)
  (fetch : request -> outcome Response) (file : File) (st : AppState)
  (payload : AnalysisRequest) :
  In (PostAnalyze payload) (sent (run JSON_stringify fetch file st)) ->
  n_simulations payload = 10000%Z /\
  n_sample_paths payload = 500%Z /\
  (n_sample_paths payload <= n_simulations payload)%Z.
Proof.
  intros Hin.
  destruct (analysis_request_of_run _ _ _ _ _ Hin) as (d & t & _ & _ & -> & _).
  cbn. repeat split. lia.
Qed.

Lemma handleUpload_counts_witness :
  In (PostAnalyze (payload_of (Some Sample.three_trades) 1000000))
     (sent (run Sample.serializer Sample.server Sample.file initial)) /\
  n_simulations (payload_of (Some Sample.three_trades) 1000000) = 10000%Z /\
  n_sample_paths (payload_of (Some Sample.three_trades) 1000000) = 500%Z /\
  (n_sample_paths (payload_of (Some Sample.three_trades) 1000000)
   <= n_simulations (payload_of (Some Sample.three_trades) 1000000))%Z.
Proof.
  assert (Hin : In (PostAnalyze (payload_of (Some Sample.three_trades) 1000000))
                   (sent (run Sample.serializer Sample.server Sample.file
                              initial))).
  { right. left. reflexivity. }
  split; [exact Hin|].
  exact (handleUpload_counts Sample.serializer Sample.server Sample.file
           initial _ Hin).
Defined.

(** C7: in a run of [handleUpload] an analysis request is sent only after
    the upload has succeeded, as the request after it, with exactly the
    trades of the uploaded body; when the upload or the analysis throws,
    [results] is [null] and [error] is set to a non-empty text; and the
    dashboard is shown only after a successful upload followed by a
    successful analysis, whose body it shows. *)
Theorem handleUpload_analysis_after_upload (JSON_stringify : json -> string)
  (fetch : request -> outcome Response) (file : File) (st : AppState) :
  let w := run JSON_stringify fetch file st in
  let upload := upload_result JSON_stringify fetch file in
  let analysis := analysis_result JSON_stringify fetch in
  (forall payload,
     In (PostAnalyze payload) (sent w) ->
     sent w = [PostUpload file; PostAnalyze payload] /\
     exists uploadData,
       upload = Return uploadData /\
       get_prop uploadData "trades" = Return (trades payload)) /\
  (forall e,
     upload = Throw e \/
     (exists payload,
        In (PostAnalyze payload) (sent w) /\ analysis payload = Throw e) ->
     results (app w) = JNull /\
     error (app w) =
       Some (or_else (message e) "An unexpected error occurred.") /\
     error (app w) <> Some EmptyString /\
     dashboard_shown (app w) = false) /\
  (results (app w) <> JNull ->
   exists uploadData payload,
     upload = Return uploadData /\
     sent w = [PostUpload file; PostAnalyze payload] /\
     analysis payload = Return (results (app w))) /\
  (dashboard_shown (app w) = true -> results (app w) <> JNull).
Proof.
  cbv zeta. split; [|split; [|split]].
  - intros payload Hin.
    destruct (analysis_request_of_run _ _ _ _ _ Hin)
      as (d & t & Hup & Ht & -> & Hsent).
    split; [exact Hsent|]. exists d. now split.
  - intros e [Hup | (payload & Hin & Han)].
    + unfold run. rewrite handleUpload_run, Hup. cbn.
      repeat split. intros [=H]. now apply or_else_default in H.
    + destruct (analysis_request_of_run _ _ _ _ _ Hin)
        as (d & t & Hup & Ht & Hp & _).
      unfold run. rewrite handleUpload_run, Hup, Ht. cbv zeta.
      cbn [app]. rewrite <- Hp, Han. cbn.
      repeat split. intros [=H]. now apply or_else_default in H.
  - unfold run. rewrite handleUpload_run. cbn [snd app sent].
    destruct (upload_result JSON_stringify fetch file) as [d|e];
      [|cbn; congruence].
    destruct (get_prop d "trades") as [t|e]; [|cbn; congruence].
    cbv zeta.
    destruct (analysis_result _ _ _) as [r|e] eqn:Han; [|cbn; congruence].
    cbn. intros _. exists d, (payload_of t (initialCapital st)).
    repeat split. exact Han.
  - unfold dashboard_shown. intros H Hnull. rewrite Hnull in H. discriminate.
Qed.

Lemma handleUpload_analysis_after_upload_witness :
  sent (run Sample.serializer Sample.server Sample.file initial) =
    [PostUpload Sample.file;
     PostAnalyze (payload_of (Some Sample.three_trades) 1000000)] /\
  exists uploadData,
    upload_result Sample.serializer Sample.server Sample.file =
      Return uploadData /\
    get_prop uploadData "trades" = Return (Some Sample.three_trades).
Proof.
  apply (proj1 (handleUpload_analysis_after_upload Sample.serializer
                  Sample.server Sample.file initial)
               (payload_of (Some Sample.three_trades) 1000000)).
  right. left. reflexivity.
Defined.

(** A refused upload: one request is sent, the banner carries the server's
    detail, and nothing is shown. *)
Lemma handleUpload_refused :
  run Sample.serializer Sample.refusing_server Sample.file initial =
  {| app := {| loading := false; error := Some "Could not parse CSV"%string;
               results := JNull; initialCapital := 1000000 |};
     sent := [PostUpload Sample.file] |}.
Proof. reflexivity. Qed.

(** An upload answered with the JSON value [null]: reading its [trades]
    throws inside the [try], no analysis request is sent and the banner is
    set. *)
Lemma handleUpload_null_upload (JSON_stringify : json -> string)
  (fetch : request -> outcome Response) (file : File) (st : AppState) :
  upload_result JSON_stringify fetch file = Return JNull ->
  sent (run JSON_stringify fetch file st) = [PostUpload file] /\
  results (app (run JSON_stringify fetch file st)) = JNull /\
  error (app (run JSON_stringify fetch file st)) =
    Some "Cannot read properties of null (reading 'trades')"%string.
Proof.
  intros Hup. unfold run. rewrite handleUpload_run, Hup. cbn. repeat split.
Qed.

(** ** The analysis engine: validation *)

Import Engine.

Lemma validate_invalid (req : Engine.AnalysisRequest) :
  invalid req -> exists parameter, validate req = Some (InvalidInput parameter).
Proof.
  unfold invalid, validate. intros H.
  destruct (Engine.trades req) as [|t ts]; [now eexists|].
  destruct (Rle_dec (Engine.initial_capital req) 0); [now eexists|].
  destruct (Z.leb_spec (Engine.n_simulations req) 0); [now eexists|].
  destruct (Z.leb_spec (Engine.n_sample_paths req) 0); [now eexists|].
  destruct (Z.ltb_spec (Engine.n_simulations req) (Engine.n_sample_paths req));
    [now eexists|].
  exfalso. destruct H as [H|[H|[H|[H|H]]]]; try discriminate; try lia; lra.
Qed.

Lemma validate_valid (req : Engine.AnalysisRequest) :
  ~ invalid req -> validate req = None.
Proof.
  unfold invalid, validate. intros H.
  destruct (Engine.trades req) as [|t ts]; [tauto|].
  destruct (Rle_dec (Engine.initial_capital req) 0); [tauto|].
  destruct (Z.leb_spec (Engine.n_simulations req) 0); [tauto|].
  destruct (Z.leb_spec (Engine.n_sample_paths req) 0); [tauto|].
  destruct (Z.ltb_spec (Engine.n_simulations req) (Engine.n_sample_paths req));
    [|reflexivity].
  exfalso. apply H. do 4 right. lia.
Qed.

(** A request the engine answers is valid, and its answer is [respond]. *)
Lemma analyze_answer (rng : nat -> nat -> nat) (req : Engine.AnalysisRequest)
  (resp : AnalysisResponse) (steps : list step) :
  analyze rng req = (inr resp, steps) ->
  resp = respond rng req /\ ~ invalid req.
Proof.
  unfold analyze. intros H. split.
  - destruct (validate req); inversion H; reflexivity.
  - intros Hinv. destruct (validate_invalid req Hinv) as [p Hp].
    rewrite Hp in H. discriminate.
Qed.

(** In the model an invalid request ends with InvalidInput and no step. *)
Lemma invalid_request_rejected (rng : nat -> nat -> nat)
  (req : Engine.AnalysisRequest) :
  invalid req ->
  exists parameter, analyze rng req = (inl (InvalidInput parameter), []).
Proof.
  intros H. destruct (validate_invalid req H) as [p Hp].
  exists p. unfold analyze. now rewrite Hp.
Qed.

(** Every other request is answered. *)
Lemma valid_request_answered (rng : nat -> nat -> nat)
  (req : Engine.AnalysisRequest) :
  ~ invalid req ->
  exists steps, analyze rng req = (inr (respond rng req), steps).
Proof.
  intros H. unfold analyze. rewrite (validate_valid req H). now eexists.
Qed.

(** ** The analysis engine: the historical equity curve *)

Lemma cumsum_from_length (acc : R) (xs : list R) :
  length (cumsum_from acc xs) = length xs.
Proof.
  revert acc. induction xs as [|x xs IH]; intros acc; cbn; [|rewrite IH];
    reflexivity.
Qed.

Lemma cumsum_from_nth (xs : list R) (acc : R) (j : nat) :
  (j < length xs)%nat ->
  nth j (cumsum_from acc xs) 0 = acc + sum (firstn (S j) xs).
Proof.
  revert acc j. induction xs as [|x xs IH]; intros acc j Hj; cbn in Hj.
  - lia.
  - destruct j as [|j].
    + cbn. destruct xs; cbn; lra.
    + cbn [cumsum_from nth]. rewrite IH by lia.
      change (firstn (S (S j)) (x :: xs)) with (x :: firstn (S j) xs).
      cbn [sum fold_right]. fold (sum (firstn (S j) xs)). lra.
Qed.

Lemma equity_path_length (C : R) (p : list R) :
  length (equity_path C p) = length p.
Proof.
  unfold equity_path, cumsum. now rewrite length_map, cumsum_from_length.
Qed.

Lemma equity_path_nth (C : R) (p : list R) (j : nat) :
  (j < length p)%nat ->
  nth j (equity_path C p) 0 = C + sum (firstn (S j) p).
Proof.
  intros Hj. unfold equity_path, cumsum.
  rewrite (nth_indep _ 0 (C + 0))
    by (now rewrite length_map, cumsum_from_length).
  rewrite (map_nth (fun s => C + s)), cumsum_from_nth by exact Hj.
  lra.
Qed.

(** The scenario of the specification: trades [+100, -50, +200] from a
    capital of 1000. *)
Lemma equity_path_scenario :
  equity_path 1000 [100; -50; 200] = [1100; 1050; 1250].
Proof.
  unfold equity_path, cumsum. cbn. repeat (f_equal; try lra).
Qed.

(** C1: the equity curve of an answered request has one entry per trade,
    and entry [j] is the initial capital plus the sum of the P&L of trades
    [0 .. j]. *)
Theorem equity_curve_cumulative (rng : nat -> nat -> nat)
  (req : Engine.AnalysisRequest) (resp : AnalysisResponse)
  (steps : list step) :
  analyze rng req = (inr resp, steps) ->
  length (equity (equity_curve resp)) = length (Engine.trades req) /\
  forall j, (j < length (Engine.trades req))%nat ->
    nth j (equity (equity_curve resp)) 0 =
    Engine.initial_capital req
    + sum (firstn (S j) (map pnl (Engine.trades req))).
Proof.
  intros H. destruct (analyze_answer _ _ _ _ H) as [-> _].
  cbn [respond equity_curve equity]. split.
  - now rewrite equity_path_length, length_map.
  - intros j Hj. apply equity_path_nth. now rewrite length_map.
Qed.

(** ** The analysis engine: percentiles *)

Lemma percentile_interpolate (q : nat) (xs : list R) :
  percentile q xs =
  interpolate (RSort.sort xs) ((length (RSort.sort xs) - 1) * q).
Proof. reflexivity. Qed.

Lemma leb_le (x y : R) : is_true (ROrder.leb x y) <-> x <= y.
Proof.
  unfold ROrder.leb, is_true. destruct (Rle_dec x y); split; intros; easy.
Qed.

Lemma leb_transitive : Transitive (fun x y => is_true (ROrder.leb x y)).
Proof.
  intros x y z Hxy Hyz. apply leb_le in Hxy, Hyz. apply leb_le. lra.
Qed.

Lemma StronglySorted_ascending (s : list R) :
  StronglySorted (fun x y => is_true (ROrder.leb x y)) s -> ascending s.
Proof.
  induction 1 as [|a s Hs IH Ha]; intros i j Hij; cbn in Hij.
  - lia.
  - destruct i as [|i], j as [|j]; cbn [nth]; try lia.
    + lra.
    + apply leb_le. rewrite Forall_forall in Ha. apply Ha, nth_In. lia.
    + apply IH. lia.
Qed.

Lemma sort_ascending (xs : list R) : ascending (RSort.sort xs).
Proof.
  apply StronglySorted_ascending, RSort.StronglySorted_sort, leb_transitive.
Qed.

Lemma sort_length (xs : list R) : length (RSort.sort xs) = length xs.
Proof. symmetry. apply Permutation_length, RSort.Permuted_sort. Qed.

Lemma fraction_bounds (r : nat) :
  (r < 100)%nat -> 0 <= INR r / 100 <= 1.
Proof.
  intros Hr. pose proof (pos_INR r) as H0.
  apply lt_INR in Hr.
  replace (INR 100) with 100 in Hr by (now rewrite INR_IZR_INZ).
  lra.
Qed.

(** Between two order statistics the interpolation stays between them. *)
Lemma interpolate_between (s : list R) (h : nat) :
  ascending s -> (h <= (length s - 1) * 100)%nat -> (0 < length s)%nat ->
  nth (h / 100) s 0 <= interpolate s h <=
  nth (Nat.min (h / 100 + 1) (length s - 1)) s 0.
Proof.
  intros Hs Hh Hm. unfold interpolate. cbv zeta.
  set (lo := (h / 100)%nat). set (hi := Nat.min (lo + 1) (length s - 1)).
  assert (Hlo : (lo <= length s - 1)%nat).
  { subst lo. apply Nat.Div0.div_le_upper_bound. lia. }
  assert (Hd : nth lo s 0 <= nth hi s 0) by (apply Hs; subst hi; lia).
  pose proof (fraction_bounds (h mod 100)
                (Nat.mod_upper_bound h 100 ltac:(lia))) as Hf.
  split; nra.
Qed.

(** The interpolation does not decrease along the sorted sample. *)
Lemma interpolate_mono (s : list R) (h1 h2 : nat) :
  ascending s -> (h1 <= h2 <= (length s - 1) * 100)%nat ->
  interpolate s h1 <= interpolate s h2.
Proof.
  intros Hs [H12 H2].
  destruct (Nat.eq_dec (length s) 0) as [Hm|Hm].
  { unfold interpolate. cbv zeta.
    rewrite !nth_overflow by lia. lra. }
  assert (Hlo2 : (h2 / 100 <= length s - 1)%nat)
    by (apply Nat.Div0.div_le_upper_bound; lia).
  pose proof (Nat.Div0.div_le_mono h1 h2 100 H12) as Hlo.
  destruct (interpolate_between s h1 Hs ltac:(lia) ltac:(lia)) as [_ Hup].
  destruct (interpolate_between s h2 Hs ltac:(lia) ltac:(lia)) as [Hlow _].
  destruct (Nat.eq_dec (h1 / 100) (h2 / 100)) as [Heq|Hne].
  - unfold interpolate. cbv zeta. rewrite Heq.
    set (lo := (h2 / 100)%nat) in *.
    set (hi := Nat.min (lo + 1) (length s - 1)).
    assert (Hd : nth lo s 0 <= nth hi s 0) by (apply Hs; subst hi; lia).
    assert (Hr : (h1 mod 100 <= h2 mod 100)%nat).
    { pose proof (Nat.div_mod_eq h1 100). pose proof (Nat.div_mod_eq h2 100).
      subst lo. lia. }
    apply le_INR in Hr. nra.
  - assert (Hstep : nth (Nat.min (h1 / 100 + 1) (length s - 1)) s 0
                    <= nth (h2 / 100) s 0) by (apply Hs; lia).
    lra.
Qed.

(** The percentile by linear interpolation is monotone in the percent. *)
Lemma percentile_mono (xs : list R) (q1 q2 : nat) :
  (q1 <= q2 <= 100)%nat -> percentile q1 xs <= percentile q2 xs.
Proof.
  intros [H12 H2]. rewrite !percentile_interpolate.
  apply interpolate_mono; [apply sort_ascending|]. nia.
Qed.

Lemma band_nth (q n j : nat) (paths : list (list R)) :
  (j < n)%nat ->
  nth j (band q n paths) 0 = percentile q (column j paths).
Proof.
  intros Hj. unfold band.
  rewrite (nth_indep _ 0 (percentile q (column 0 paths)))
    by (now rewrite length_map, length_seq).
  rewrite (map_nth (fun j => percentile q (column j paths))).
  now rewrite seq_nth.
Qed.

(** C3: in the answer to a request the five bands are ordered at every time
    index, [p5_path <= p25_path <= median_path <= p75_path <= p95_path],
    and so are the percentiles of the final equity,
    [p5 <= median_final <= p95]. *)
Theorem bands_ordered (rng : nat -> nat -> nat)
  (req : Engine.AnalysisRequest) (resp : AnalysisResponse)
  (steps : list step) :
  analyze rng req = (inr resp, steps) ->
  (forall j, (j < length (Engine.trades req))%nat ->
     nth j (p5_path (mc_paths resp)) 0 <= nth j (p25_path (mc_paths resp)) 0 /\
     nth j (p25_path (mc_paths resp)) 0 <= nth j (median_path (mc_paths resp)) 0 /\
     nth j (median_path (mc_paths resp)) 0 <= nth j (p75_path (mc_paths resp)) 0 /\
     nth j (p75_path (mc_paths resp)) 0 <= nth j (p95_path (mc_paths resp)) 0) /\
  Engine.p5 (mc_distribution resp) <= median_final (mc_distribution resp) /\
  median_final (mc_distribution resp) <= Engine.p95 (mc_distribution resp).
Proof.
  intros H. destruct (analyze_answer _ _ _ _ H) as [-> _].
  cbn [respond mc_paths mc_distribution bands summarize p5_path p25_path
       median_path p75_path p95_path Engine.p5 Engine.p95 median_final].
  split.
  - intros j Hj. rewrite length_map.
    rewrite !band_nth by exact Hj.
    repeat split; apply percentile_mono; lia.
  - split; apply percentile_mono; lia.
Qed.

(** ** The analysis engine on a sample request *)

Lemma sample_request_valid : ~ invalid Sample.engine_request.
Proof.
  unfold invalid. cbn.
  intros [H|[H|[H|[H|H]]]]; try discriminate; try lia; lra.
Qed.

Lemma sample_request_answered :
  analyze Sample.draws Sample.engine_request =
  (inr (respond Sample.draws Sample.engine_request), Sample.engine_steps).
Proof.
  unfold analyze. now rewrite (validate_valid _ sample_request_valid).
Qed.

Lemma equity_curve_cumulative_witness :
  analyze Sample.draws Sample.engine_request =
    (inr (respond Sample.draws Sample.engine_request), Sample.engine_steps) /\
  length (equity (equity_curve (respond Sample.draws Sample.engine_request))) =
    length (Engine.trades Sample.engine_request) /\
  forall j, (j < length (Engine.trades Sample.engine_request))%nat ->
    nth j (equity (equity_curve
                     (respond Sample.draws Sample.engine_request))) 0 =
    Engine.initial_capital Sample.engine_request
    + sum (firstn (S j) (map pnl (Engine.trades Sample.engine_request))).
Proof.
  split; [exact sample_request_answered|].
  exact (equity_curve_cumulative Sample.draws Sample.engine_request _ _
           sample_request_answered).
Defined.

(** The equity curve of the sample request is the one of the scenario. *)
Lemma sample_equity_curve :
  equity (equity_curve (respond Sample.draws Sample.engine_request)) =
  [1100; 1050; 1250].
Proof. exact equity_path_scenario. Qed.

Lemma no_simulation_rejected :
  exists parameter,
    analyze Sample.draws Sample.no_simulation =
    (inl (InvalidInput parameter), []).
Proof.
  apply invalid_request_rejected. unfold invalid. cbn. right. right. left. lia.
Qed.

Lemma bands_ordered_witness :
  analyze Sample.draws Sample.engine_request =
    (inr (respond Sample.draws Sample.engine_request), Sample.engine_steps) /\
  let resp := respond Sample.draws Sample.engine_request in
  (forall j, (j < length (Engine.trades Sample.engine_request))%nat ->
     nth j (p5_path (mc_paths resp)) 0 <= nth j (p25_path (mc_paths resp)) 0 /\
     nth j (p25_path (mc_paths resp)) 0 <= nth j (median_path (mc_paths resp)) 0 /\
     nth j (median_path (mc_paths resp)) 0 <= nth j (p75_path (mc_paths resp)) 0 /\
     nth j (p75_path (mc_paths resp)) 0 <= nth j (p95_path (mc_paths resp)) 0) /\
  Engine.p5 (mc_distribution resp) <= median_final (mc_distribution resp) /\
  median_final (mc_distribution resp) <= Engine.p95 (mc_distribution resp).
Proof.
  split; [exact sample_request_answered|].
  exact (bands_ordered Sample.draws Sample.engine_request _ _
           sample_request_answered).
Defined.

(** ** Percentiles of small samples *)

Ltac decide_order :=
  repeat match goal with
  | |- context [Rle_dec ?a ?b] =>
      destruct (Rle_dec a b);
      [try (exfalso; lra) | try (exfalso; lra)]; cbn
  end.

Ltac run_sort :=
  cbv [RSort.sort RSort.iter_merge RSort.merge_list_to_stack
       RSort.merge_stack RSort.merge ROrder.leb];
  decide_order; try reflexivity.

Lemma sort_four : RSort.sort [40; 10; 30; 20] = [10; 20; 30; 40].
Proof. run_sort. Qed.

(** The median of an even sample is the mean of the middle two. *)
Lemma percentile_50_four : percentile 50 [40; 10; 30; 20] = 25.
Proof.
  rewrite percentile_interpolate, sort_four. unfold interpolate. cbn. lra.
Qed.

(** Position [3 * 0.05 = 0.15] between the first two order statistics. *)
Lemma percentile_5_four : percentile 5 [40; 10; 30; 20] = 11.5.
Proof.
  rewrite percentile_interpolate, sort_four. unfold interpolate. cbn. lra.
Qed.

Lemma percentile_95_four : percentile 95 [40; 10; 30; 20] = 38.5.
Proof.
  rewrite percentile_interpolate, sort_four. unfold interpolate. cbn. lra.
Qed.

(** A sample of one value: every percentile is that value. *)
Lemma percentile_single (q : nat) (x : R) : percentile q [x] = x.
Proof.
  rewrite percentile_interpolate. cbn. unfold interpolate. cbn. lra.
Qed.

(** ** The scenario of the specification *)

(** Trades [+100, -50, +200] from 1000: the largest drawdown is the fall
    from 1100 to 1050. *)
Lemma max_drawdown_scenario :
  max_drawdown_of [1100; 1050; 1250] = (1100 - 1050) / 1100.
Proof.
  unfold max_drawdown_of, max_drawdown_from, drawdown.
  rewrite (Rmax_left 1100 1050) by lra.
  rewrite (Rmax_right 1100 1250) by lra.
  destruct (Req_dec_T 1100 0) as [H|_]; [lra|].
  destruct (Req_dec_T 1250 0) as [H|_]; [lra|].
  rewrite (Rmax_right 0 ((1100 - 1050) / 1100)) by lra.
  apply Rmax_left. lra.
Qed.

Lemma total_pnl_scenario : sum [100; -50; 200] = 250.
Proof. cbn. lra. Qed.

(* ================================================================= *)
(** * Part III: more of the client *)
(* ================================================================= *)

Import SummaryTable FanChart Js Api App.

(** ** The range of the normal approximation *)

Lemma tail_poly_pos (t : R) : 0 < t <= 1 -> 0 < tail_poly t.
Proof.
  intros [H0 H1]. unfold tail_poly.
  apply Rmult_lt_0_compat; [exact H0|]. nra.
Qed.

(** On [(0, 1]] the polynomial is largest at [t = 1]. *)
Lemma tail_poly_le (t : R) : 0 < t <= 1 -> tail_poly t <= 1.253314.
Proof.
  intros [H0 H1]. unfold tail_poly.
  assert (Hg : 0 <= 1.253314 + 0.9339325 * t + 1.2904963 * t * t
                    - 0.4909816 * t * t * t + 1.3302744 * t * t * t * t).
  { assert (0 <= t * t) by nra. assert (t * t * t <= t * t) by nra.
    assert (0 <= t * t * t * t) by nra. nra. }
  nra.
Qed.

Lemma exp_le_1 (y : R) : y <= 0 -> exp y <= 1.
Proof.
  intros [H| ->]; [|rewrite exp_0; lra].
  left. rewrite <- exp_0. now apply exp_increasing.
Qed.

(** The tail [p] of [normalCDF] lies strictly between 0 and one half. *)
Lemma tail_bounds (x : R) :
  0 < 0.3989422820 * exp (- x * x / 2)
      * tail_poly (1 / (1 + 0.2316419 * Rabs x)) < 1 / 2.
Proof.
  pose proof (Rabs_pos x) as Ha.
  assert (Ht : 0 < 1 / (1 + 0.2316419 * Rabs x) <= 1).
  { split.
    - apply Rdiv_lt_0_compat; lra.
    - assert (Hd : 1 <= 1 + 0.2316419 * Rabs x) by lra.
      pose proof (Rinv_le_contravar 1 _ Rlt_0_1 Hd) as Hi.
      rewrite Rinv_1 in Hi. unfold Rdiv. lra. }
  pose proof (tail_poly_pos _ Ht) as Hp. pose proof (tail_poly_le _ Ht) as Hq.
  pose proof (exp_pos (- x * x / 2)) as He.
  assert (He1 : exp (- x * x / 2) <= 1) by (apply exp_le_1; nra).
  set (e := exp (- x * x / 2)) in *. set (f := tail_poly _) in *.
  split; nra.
Qed.

Lemma normalCDF_tail (x : R) :
  exists p, 0 < p < 1 / 2 /\
            normalCDF x = if geb x 0 then 1 - p else p.
Proof.
  exists (0.3989422820 * exp (- x * x / 2)
          * tail_poly (1 / (1 + 0.2316419 * Rabs x))).
  split; [apply tail_bounds|].
  unfold normalCDF, tail_poly. cbv zeta.
  destruct (geb x 0); ring.
Qed.

Lemma normalCDF_unit (x : R) : 0 < normalCDF x < 1.
Proof.
  destruct (normalCDF_tail x) as (p & Hp & ->).
  destruct (geb x 0); lra.
Qed.

Lemma normalCDF_sign (x : R) :
  (1 / 2 < normalCDF x <-> 0 <= x) /\ (normalCDF x < 1 / 2 <-> x < 0).
Proof.
  destruct (normalCDF_tail x) as (p & Hp & ->).
  destruct (geb x 0) eqn:E.
  - apply geb_true in E. split; split; intros; lra.
  - apply geb_false in E. split; split; intros; lra.
Qed.

(** X1: [normalCDF] is a probability: for every real [x] its value lies
    between 0 and 1. *)
Theorem normalCDF_range (x : R) : 0 <= normalCDF x <= 1.
Proof. pose proof (normalCDF_unit x). lra. Qed.

(** X2: [normalCDF x] is above one half exactly when [x >= 0] (and below
    one half for every [x < 0]). *)
Theorem normalCDF_half (x : R) :
  (1 / 2 < normalCDF x <-> 0 <= x) /\ (normalCDF x < 1 / 2 <-> x < 0).
Proof. exact (normalCDF_sign x). Qed.

(** ** The derived scenario rows *)

Lemma quotient_sign (a b : R) : 1 <= b -> (0 <= a / b <-> 0 <= a).
Proof.
  intros Hb. assert (Hi : 0 < / b) by (apply Rinv_0_lt_compat; lra).
  unfold Rdiv. split; intros H; [|nra].
  destruct (Rle_lt_dec 0 a) as [|Hneg]; [assumption|]. nra.
Qed.

Lemma probProfit_half (metrics : Metrics) (initialCapital : R)
  (label : string) (meanScale : R) :
  1 / 2 < probProfit (deriveRow metrics initialCapital label meanScale) <->
  initialCapital <= mean (deriveRow metrics initialCapital label meanScale).
Proof.
  unfold deriveRow, SummaryTable.n, ic, std. cbn [probProfit mean].
  rewrite (proj1 (normalCDF_sign _)), quotient_sign by apply Rmax_r.
  split; intros; lra.
Qed.

Lemma probDD_half (metrics : Metrics) (initialCapital : R)
  (label : string) (meanScale : R) :
  probDD (deriveRow metrics initialCapital label meanScale) < 1 / 2 <->
  mean (deriveRow metrics initialCapital label meanScale)
  <= initialCapital / 2.
Proof.
  unfold deriveRow, SummaryTable.n, ic, std. cbn [probDD mean].
  set (z := _ / Rmax _ 1).
  assert (H : 1 - normalCDF z < 1 / 2 <-> 1 / 2 < normalCDF z)
    by (split; intros; lra).
  rewrite H, (proj1 (normalCDF_sign z)). subst z.
  rewrite quotient_sign by apply Rmax_r.
  split; intros; lra.
Qed.


Lemma deriveRow_badge (metrics : Metrics) (initialCapital : R)
  (label : string) (meanScale : R) :
  0 < initialCapital ->
  let row := deriveRow metrics initialCapital label meanScale in
  SummaryTable.label (RiskBadge (probProfit row) (probDD row)) = "MEDIUM"%string \/
  SummaryTable.label (RiskBadge (probProfit row) (probDD row)) = "HIGH"%string.
Proof.
  intros Hic. cbv zeta.
  pose proof (probProfit_half metrics initialCapital label meanScale) as Hp.
  pose proof (probDD_half metrics initialCapital label meanScale) as Hd.
  set (row := deriveRow metrics initialCapital label meanScale) in *.
  assert (Hno : forall a b, a >= 0.90 -> b <= 0.05 ->
                  ~ (probProfit row >= a /\ probDD row < b)).
  { intros a b Ha Hb [H1 H2].
    assert (H3 : initialCapital <= mean row) by (apply Hp; lra).
    assert (H4 : mean row <= initialCapital / 2) by (apply Hd; lra).
    lra. }
  unfold RiskBadge.
  destruct (geb (probProfit row) 0.99 && ltb (probDD row) 0.01) eqn:E1.
  { apply and_test_true in E1. exfalso. apply (Hno 0.99 0.01); [lra|lra|easy]. }
  destruct (geb (probProfit row) 0.90 && ltb (probDD row) 0.05) eqn:E2.
  { apply and_test_true in E2. exfalso. apply (Hno 0.90 0.05); [lra|lra|easy]. }
  destruct (geb (probProfit row) 0.70); cbn; auto.
Qed.

(** X4: with a positive initial capital the badge of a derived row is never
    LOW and never MEDIUM-LOW: a profit probability of 0.90 needs a mean of
    at least the capital, a drawdown probability below 0.05 a mean of at
    most half of it. *)
Theorem derived_row_badge (metrics : Metrics) (initialCapital : R)
  (label : string) (meanScale : R) :
  0 < initialCapital ->
  let badge := risk (render_row
                       (deriveRow metrics initialCapital label meanScale)) in
  SummaryTable.label badge = "MEDIUM"%string \/
  SummaryTable.label badge = "HIGH"%string.
Proof.
  intros Hic. cbv zeta. unfold render_row. cbn [risk].
  now apply deriveRow_badge.
Qed.

Lemma derived_row_badge_witness :
  0 < 1000000 /\
  (SummaryTable.label
     (risk (render_row (deriveRow Sample.metrics 1000000 "B: Edge +50%" 1.50)))
   = "MEDIUM"%string \/
   SummaryTable.label
     (risk (render_row (deriveRow Sample.metrics 1000000 "B: Edge +50%" 1.50)))
   = "HIGH"%string).
Proof.
  split; [lra|].
  apply (derived_row_badge Sample.metrics 1000000 "B: Edge +50%" 1.50). lra.
Defined.

(** X5: [SummaryTable] renders nothing without a distribution or without
    metrics; otherwise it renders five rows, the first with the badge of the
    simulated probabilities, and, when the initial capital is positive, the
    four derived ones with a MEDIUM or HIGH badge. *)
Theorem table_rows (distribution : option Distribution)
  (metrics : option Metrics) (initialCapital : R) :
  (distribution = None \/ metrics = None ->
   table distribution metrics initialCapital = None) /\
  (forall d m,
     distribution = Some d -> metrics = Some m ->
     exists first derived,
       table distribution metrics initialCapital = Some (first :: derived) /\
       length derived = 4%nat /\
       risk first = RiskBadge (prob_profit d) (prob_large_drawdown d) /\
       (0 < initialCapital ->
        Forall (fun cells =>
                  SummaryTable.label (risk cells) = "MEDIUM"%string \/
                  SummaryTable.label (risk cells) = "HIGH"%string)
               derived)).
Proof.
  split.
  - intros [-> | ->]; [reflexivity|]. now destruct distribution.
  - intros d m -> ->. unfold table, rows. cbn [map].
    eexists. eexists. split; [reflexivity|].
    split; [reflexivity|]. split; [reflexivity|].
    intros Hic.
    repeat (apply Forall_cons;
            [unfold render_row; cbn [risk]; now apply deriveRow_badge|]).
    apply Forall_nil.
Qed.

Lemma table_rows_witness :
  exists first derived,
    table (Some Sample.distribution) (Some Sample.metrics) 1000000 =
      Some (first :: derived) /\
    length derived = 4%nat /\
    risk first = RiskBadge (prob_profit Sample.distribution)
                           (prob_large_drawdown Sample.distribution) /\
    (0 < 1000000 ->
     Forall (fun cells =>
               SummaryTable.label (risk cells) = "MEDIUM"%string \/
               SummaryTable.label (risk cells) = "HIGH"%string)
            derived).
Proof.
  exact (proj2 (table_rows (Some Sample.distribution) (Some Sample.metrics)
                  1000000)
               Sample.distribution Sample.metrics eq_refl eq_refl).
Defined.



(** X7: the median of a derived row lies between the initial capital and
    the mean of the row: at or above the capital and at or below the mean
    when the mean is at least the capital, and the other way round when the
    mean is at most the capital. *)
Theorem deriveRow_median (metrics : Metrics) (initialCapital : R)
  (label : string) (meanScale : R) :
  let row := deriveRow metrics initialCapital label meanScale in
  (initialCapital <= mean row ->
   initialCapital <= median row <= mean row) /\
  (mean row <= initialCapital ->
   mean row <= median row <= initialCapital).
Proof.
  cbv zeta.
  unfold deriveRow, SummaryTable.n, ic, std. cbn [mean median].
  split; intros H; split; lra.
Qed.

Lemma deriveRow_median_witness :
  1000000 <= mean (deriveRow Sample.flat_metrics 1000000 "B: Edge +50%" 1.50) /\
  1000000 <= median (deriveRow Sample.flat_metrics 1000000 "B: Edge +50%" 1.50)
  <= mean (deriveRow Sample.flat_metrics 1000000 "B: Edge +50%" 1.50).
Proof.
  assert (H : 1000000
              <= mean (deriveRow Sample.flat_metrics 1000000
                         "B: Edge +50%" 1.50)).
  { unfold deriveRow, SummaryTable.n, ic. cbn [mean Sample.flat_metrics
      total_trades mean_pnl].
    pose proof (pos_INR 100). nra. }
  split; [exact H|].
  exact (proj1 (deriveRow_median Sample.flat_metrics 1000000 "B: Edge +50%"
                  1.50) H).
Defined.



(** ** Colours and badges of the table *)

Lemma gtb_true (x y : R) : gtb x y = true <-> x > y.
Proof.
  unfold gtb. destruct (Rgt_dec x y); split; intros; easy.
Qed.

Ltac split_tests :=
  unfold RiskBadge, profitColor, drawdownColor, geb, ltb, gtb;
  repeat match goal with
  | |- context [Rge_dec ?a ?b] => destruct (Rge_dec a b)
  | |- context [Rlt_dec ?a ?b] => destruct (Rlt_dec a b)
  | |- context [Rgt_dec ?a ?b] => destruct (Rgt_dec a b)
  end;
  cbn.

(** X9: the badge and the cell colours of a row agree: the badge is red
    exactly when the profit probability is printed in red; under a green
    badge the profit probability is printed in green and the drawdown
    probability in grey; under an amber badge the profit probability is
    not red. *)
Theorem badge_colours (prob_profit prob_drawdown : R) :
  let badge := className (RiskBadge prob_profit prob_drawdown) in
  (badge = "badge badge-red"%string <->
   profitColor prob_profit = "#f85149"%string) /\
  (badge = "badge badge-green"%string ->
   profitColor prob_profit = "#3fb950"%string /\
   drawdownColor prob_drawdown = "#8b949e"%string) /\
  (badge = "badge badge-amber"%string ->
   profitColor prob_profit <> "#f85149"%string).
Proof.
  cbv zeta. split_tests;
    repeat split; intros; try discriminate; try reflexivity; try lra.
Qed.

(** X10: the badge is monotone: a profit probability that is not lower
    together with a drawdown probability that is not higher never gives a
    worse label. *)
Theorem RiskBadge_monotone (p p' d d' : R) :
  p <= p' -> d' <= d ->
  (severity (label (RiskBadge p' d')) <= severity (label (RiskBadge p d)))%nat.
Proof.
  intros Hp Hd. split_tests; first [lia | exfalso; lra].
Qed.

Lemma RiskBadge_monotone_witness :
  0.95 <= 0.995 /\ 0.005 <= 0.05 /\
  (severity (label (RiskBadge 0.995 0.005))
   <= severity (label (RiskBadge 0.95 0.05)))%nat.
Proof.
  assert (H1 : 0.95 <= 0.995) by lra.
  assert (H2 : 0.005 <= 0.05) by lra.
  split; [exact H1|]. split; [exact H2|].
  exact (RiskBadge_monotone 0.95 0.995 0.05 0.005 H1 H2).
Defined.

(** ** The fan of sample paths, continued *)

Lemma map_is_null_segmentX (path : list R) :
  map is_null (segmentX path) = repeat false (length path) ++ [true].
Proof.
  unfold segmentX. rewrite map_app, map_map. cbn. f_equal.
  rewrite <- (length_seq (length path) 0) at 2.
  generalize (seq 0 (length path)). intros l.
  induction l as [|a l IH]; cbn; [|rewrite IH]; reflexivity.
Qed.

Lemma map_is_null_segmentY (path : list R) :
  map is_null (segmentY path) = repeat false (length path) ++ [true].
Proof.
  unfold segmentY. rewrite map_app, map_map. cbn. f_equal.
  induction path as [|a l IH]; cbn; [|rewrite IH]; reflexivity.
Qed.

Lemma count_true_segment (len : nat) :
  count_occ bool_dec (repeat false len ++ [true]) true = 1%nat.
Proof. induction len as [|len IH]; cbn; [reflexivity|exact IH]. Qed.

(** X11: [fanX] and [fanY] are aligned: an entry of one is [null] exactly
    where the entry of the other is, and the number of [null] entries is
    the number of sample paths. *)
Theorem fan_separators (sample_paths : list (list R)) :
  map is_null (fanX sample_paths) = map is_null (fanY sample_paths) /\
  count_occ bool_dec (map is_null (fanX sample_paths)) true =
    length sample_paths.
Proof.
  rewrite fanX_segments, fanY_segments.
  induction sample_paths as [|path paths [IH1 IH2]]; [split; reflexivity|].
  cbn [map concat]. rewrite !map_app, IH1.
  rewrite map_is_null_segmentX, map_is_null_segmentY. split; [reflexivity|].
  rewrite <- IH1, count_occ_app, count_true_segment, IH2. reflexivity.
Qed.

Lemma omit_nulls_app {A : Type} (l1 l2 : list (option A)) :
  omit_nulls (l1 ++ l2) = omit_nulls l1 ++ omit_nulls l2.
Proof.
  induction l1 as [|[a|] l1 IH]; cbn; [reflexivity| |]; now rewrite IH.
Qed.

Lemma omit_nulls_points {A B : Type} (f : A -> B) (l : list A) :
  omit_nulls (map (fun v => Some (f v)) l ++ [None]) = map f l.
Proof.
  rewrite omit_nulls_app. cbn. rewrite app_nil_r.
  induction l as [|a l IH]; cbn; [|rewrite IH]; reflexivity.
Qed.

(** X12: without its [null] separators [fanY] is the values of all sample
    paths, in order, in millions, and [fanX] the index of each value within
    its own path. *)
Theorem fan_points (sample_paths : list (list R)) :
  omit_nulls (fanY sample_paths) = toM (concat sample_paths) /\
  omit_nulls (fanX sample_paths) =
    concat (map (fun path => seq 0 (length path)) sample_paths).
Proof.
  rewrite fanX_segments, fanY_segments. unfold toM.
  induction sample_paths as [|path paths [IH1 IH2]]; [split; reflexivity|].
  cbn [map concat]. rewrite !omit_nulls_app, IH1, IH2, map_app.
  unfold segmentX, segmentY.
  rewrite (omit_nulls_points (fun v => v / 1e6)).
  rewrite (omit_nulls_points (fun i : nat => i)), map_id.
  split; reflexivity.
Qed.

(** X13: the fan of two lists of paths, one after the other, is the fan of
    the first followed by the fan of the second; in particular no path
    gives an empty fan and an empty path one [null]. *)
Theorem fan_append (paths1 paths2 : list (list R)) :
  fanX (paths1 ++ paths2) = fanX paths1 ++ fanX paths2 /\
  fanY (paths1 ++ paths2) = fanY paths1 ++ fanY paths2 /\
  fanX [] = [] /\ fanY [] = [] /\
  fanX [[]] = [None] /\ fanY [[]] = [None].
Proof.
  rewrite !fanX_segments, !fanY_segments, !map_app, !concat_app.
  repeat split.
Qed.

(** X14: when every sample path has as many points as the median path,
    every segment of [fanX] is the trade index axis of the bands followed
    by one [null], and the fan has [(nPoints + 1)] entries per path. *)
Theorem fan_axis (median_path : list R) (sample_paths : list (list R)) :
  Forall (fun path => length path = length median_path) sample_paths ->
  fanX sample_paths =
    concat (map (fun _ => map Some (x_axis median_path) ++ [None])
                sample_paths) /\
  length (fanY sample_paths) =
    (length sample_paths * (length median_path + 1))%nat.
Proof.
  intros Hlen. rewrite fanX_segments, fanY_segments. unfold x_axis.
  induction Hlen as [|path paths Hp Hps [IH1 IH2]]; [split; reflexivity|].
  cbn [map concat]. rewrite IH1, length_app, IH2, length_segmentY.
  unfold segmentX. rewrite Hp. split; [reflexivity|cbn [length]; lia].
Qed.

Lemma fan_axis_witness :
  Forall (fun path => length path = length [1050000; 1100000])
         [[1000000; 1200000]; [900000; 1000000]] /\
  fanX [[1000000; 1200000]; [900000; 1000000]] =
    concat (map (fun _ => map Some (x_axis [1050000; 1100000]) ++ [None])
                [[1000000; 1200000]; [900000; 1000000]]).
Proof.
  assert (H : Forall (fun path => length path = length [1050000; 1100000])
                     [[1000000; 1200000]; [900000; 1000000]])
    by (repeat constructor).
  split; [exact H|].
  exact (proj1 (fan_axis [1050000; 1100000]
                  [[1000000; 1200000]; [900000; 1000000]] H)).
Defined.

(** ** The requests of api.js *)

(** X15: [uploadFile] and [runAnalysis] each send exactly one request,
    whatever the answer, and a failure of the network is the rejection they
    end with: [handleResponse] is not reached. *)
Theorem api_sends_one_request (JSON_stringify : json -> string)
  (fetch : request -> outcome Response) (file : File)
  (payload : Api.AnalysisRequest) (log : list request) :
  snd (uploadFile JSON_stringify fetch file log) = log ++ [PostUpload file] /\
  snd (runAnalysis JSON_stringify fetch payload log) =
    log ++ [PostAnalyze payload] /\
  (forall e, fetch (PostUpload file) = Throw e ->
             fst (uploadFile JSON_stringify fetch file log) = Throw e) /\
  (forall e, fetch (PostAnalyze payload) = Throw e ->
             fst (runAnalysis JSON_stringify fetch payload log) = Throw e).
Proof.
  unfold uploadFile, runAnalysis, bind, send, call.
  split; [|split; [|split]].
  - destruct (fetch (PostUpload file)); reflexivity.
  - destruct (fetch (PostAnalyze payload)); reflexivity.
  - intros e ->. reflexivity.
  - intros e ->. reflexivity.
Qed.

(** ** Runs of [handleUpload], continued *)

(** The world after a run, by the way the run ended. *)
Lemma handleUpload_ends (JSON_stringify : json -> string)
  (fetch : request -> outcome Response) (file : File) (w0 : World) :
  (exists e reqs,
     snd (handleUpload JSON_stringify fetch file w0) = failed w0 e reqs /\
     (reqs = [PostUpload file] \/
      exists payload, reqs = [PostUpload file; PostAnalyze payload])) \/
  (exists r payload,
     snd (handleUpload JSON_stringify fetch file w0) =
       succeeded w0 r [PostUpload file; PostAnalyze payload] /\
     analysis_result JSON_stringify fetch payload = Return r).
Proof.
  rewrite handleUpload_run. cbn [snd].
  destruct (upload_result JSON_stringify fetch file) as [d|e].
  2:{ left. exists e, [PostUpload file]. split; [reflexivity|now left]. }
  destruct (get_prop d "trades") as [t|e].
  2:{ left. exists e, [PostUpload file]. split; [reflexivity|now left]. }
  cbv zeta.
  destruct (analysis_result _ _ _) as [r|e] eqn:Han.
  - right. exists r. eexists. split; [reflexivity|exact Han].
  - left. exists e. eexists. split; [reflexivity|]. right. now eexists.
Qed.

(** X16: [handleUpload] never rejects: whatever the server does, the call
    resolves, [loading] is [false] again, the capital of the input field is
    untouched, and the run has sent the upload request first and at most
    one analysis request after it. *)
Theorem handleUpload_settles (JSON_stringify : json -> string)
  (fetch : request -> outcome Response) (file : File) (w0 : World) :
  let result := handleUpload JSON_stringify fetch file w0 in
  fst result = Return tt /\
  loading (app (snd result)) = false /\
  initialCapital (app (snd result)) = initialCapital (app w0) /\
  exists rest,
    sent (snd result) = sent w0 ++ PostUpload file :: rest /\
    (rest = [] \/ exists payload, rest = [PostAnalyze payload]).
Proof.
  cbv zeta. split; [now rewrite handleUpload_run|].
  destruct (handleUpload_ends JSON_stringify fetch file w0)
    as [(e & reqs & -> & Hreqs) | (r & payload & -> & _)].
  - cbn. repeat split.
    destruct Hreqs as [-> | [payload ->]]; eexists; split;
      try reflexivity; [now left | right; now eexists].
  - cbn. repeat split. eexists; split; [reflexivity|]. right. now eexists.
Qed.

(** X17: after a run the error banner and a result never go together: with
    an error set, [results] is [null] and the dashboard is hidden; with a
    result, [error] is [null]. *)
Theorem banner_excludes_dashboard (JSON_stringify : json -> string)
  (fetch : request -> outcome Response) (file : File) (st : AppState) :
  let after := app (run JSON_stringify fetch file st) in
  (error after <> None ->
   results after = JNull /\ dashboard_shown after = false) /\
  (results after <> JNull -> error after = None) /\
  (dashboard_shown after = true -> error after = None).
Proof.
  cbv zeta. unfold run.
  destruct (handleUpload_ends JSON_stringify fetch file
              {| app := st; sent := [] |})
    as [(e & reqs & -> & _) | (r & payload & -> & _)]; cbn.
  - repeat split; intros; congruence.
  - repeat split; intros; congruence.
Qed.

(** X18: a run starts from a clean slate: the state it ends in depends on
    the capital of the input field only, not on the error, the results or
    the loading flag left by an earlier run. *)
Theorem run_forgets (JSON_stringify : json -> string)
  (fetch : request -> outcome Response) (file : File) (st st' : AppState) :
  initialCapital st = initialCapital st' ->
  run JSON_stringify fetch file st = run JSON_stringify fetch file st'.
Proof.
  intros Hcap. unfold run. rewrite !handleUpload_run. cbn [snd app].
  unfold failed, succeeded. cbn [app sent]. rewrite Hcap. reflexivity.
Qed.

Lemma run_forgets_witness :
  initialCapital
    {| loading := false; error := Some "Could not parse CSV"%string;
       results := JNull; initialCapital := 1000000 |} =
  initialCapital App.initial /\
  run Sample.serializer Sample.server Sample.file
    {| loading := false; error := Some "Could not parse CSV"%string;
       results := JNull; initialCapital := 1000000 |} =
  run Sample.serializer Sample.server Sample.file App.initial.
Proof.
  split; [reflexivity|].
  exact (run_forgets Sample.serializer Sample.server Sample.file _ App.initial
           eq_refl).
Defined.

Lemma upload_result_fetch (JSON_stringify : json -> string)
  (fetch : request -> outcome Response) (file : File) (res : Response) :
  fetch (PostUpload file) = Return res ->
  upload_result JSON_stringify fetch file = handleResponse JSON_stringify res.
Proof.
  intros H. unfold upload_result, uploadFile, bind, send, call.
  now rewrite H.
Qed.

(** X19: an upload the server refuses with a JSON object: one request is
    sent, no result is kept, and the banner shows the [detail] text as it
    is when it is a non-empty string, and the text "An unexpected error
    occurred." when the object has no [detail]. *)
Theorem refused_upload_banner (JSON_stringify : json -> string)
  (fetch : request -> outcome Response) (file : File) (st : AppState)
  (res : Response) (fields : list (string * json)) :
  fetch (PostUpload file) = Return res ->
  ok res = false ->
  res_json res = Return (JObj fields) ->
  let after := run JSON_stringify fetch file st in
  sent after = [PostUpload file] /\
  results (app after) = JNull /\
  (forall s, lookup "detail" fields = Some (JStr s) -> s <> EmptyString ->
             error (app after) = Some s) /\
  (lookup "detail" fields = None ->
   error (app after) = Some "An unexpected error occurred."%string).
Proof.
  intros Hres Hok Hbody. cbv zeta. unfold run.
  rewrite handleUpload_run, (upload_result_fetch _ _ _ _ Hres).
  rewrite (handleResponse_not_ok _ _ Hok). unfold error_message.
  rewrite Hbody. cbn. repeat split.
  - intros s -> Hs. cbn. destruct s; [now elim Hs|reflexivity].
  - intros ->. reflexivity.
Qed.

Lemma refused_upload_banner_witness :
  sent (run Sample.serializer Sample.refusing_server Sample.file App.initial) =
    [PostUpload Sample.file] /\
  error (app (run Sample.serializer Sample.refusing_server Sample.file
                App.initial)) = Some "Could not parse CSV"%string /\
  error (app (run Sample.serializer Sample.gateway_server Sample.file
                App.initial)) = Some "An unexpected error occurred."%string.
Proof.
  pose proof (refused_upload_banner Sample.serializer Sample.refusing_server
                Sample.file App.initial Sample.refused _
                eq_refl eq_refl eq_refl) as (H1 & _ & H3 & _).
  pose proof (refused_upload_banner Sample.serializer Sample.gateway_server
                Sample.file App.initial Sample.no_detail _
                eq_refl eq_refl eq_refl) as (_ & _ & _ & H4).
  split; [exact H1|]. split.
  - apply H3; [reflexivity|discriminate].
  - apply H4. reflexivity.
Defined.

Lemma falsy_value (r : json) :
  truthy r = false ->
  r = JNull \/ r = JBool false \/ r = JNum 0 \/ r = JStr EmptyString.
Proof.
  destruct r as [| b | x | s | items | fields]; cbn; intros H;
    try discriminate.
  - now left.
  - right. left. now subst b.
  - right. right. left. destruct (Req_dec_T x 0); [now subst x|discriminate].
  - right. right. right. destruct s; [reflexivity|discriminate].
Qed.

(** X20: an analysis answered with a falsy JSON value ends the run without
    an error and without the dashboard; in the place of the dashboard
    nothing is rendered for [null], [false] and the empty string, and the
    text of the number for [0]. *)
Theorem falsy_analysis_rendering (JSON_stringify : json -> string)
  (fetch : request -> outcome Response) (file : File) (st : AppState)
  (uploadData : json) (t : jsval) (r : json) :
  upload_result JSON_stringify fetch file = Return uploadData ->
  get_prop uploadData "trades" = Return t ->
  analysis_result JSON_stringify fetch (payload_of t (initialCapital st)) =
    Return r ->
  truthy r = false ->
  let after := app (run JSON_stringify fetch file st) in
  error after = None /\ results after = r /\ loading after = false /\
  dashboard_slot after = SlotValue r /\
  render_slot (dashboard_slot after) =
    match r with
    | JNum _ => NumberText 0
    | JStr _ => StringText EmptyString
    | _ => Nothing
    end.
Proof.
  intros Hup Ht Han Hr. cbv zeta. unfold run.
  rewrite handleUpload_run, Hup, Ht. cbv zeta. cbn [app].
  rewrite Han. unfold dashboard_slot. cbn. rewrite Hr.
  repeat split.
  destruct (falsy_value r Hr) as [-> | [-> | [-> | ->]]]; reflexivity.
Qed.

Lemma falsy_analysis_rendering_witness :
  error (app (run Sample.serializer Sample.zero_server Sample.file
                App.initial)) = None /\
  results (app (run Sample.serializer Sample.zero_server Sample.file
                  App.initial)) = JNum 0 /\
  loading (app (run Sample.serializer Sample.zero_server Sample.file
                  App.initial)) = false /\
  dashboard_slot (app (run Sample.serializer Sample.zero_server Sample.file
                         App.initial)) = SlotValue (JNum 0) /\
  render_slot
    (dashboard_slot (app (run Sample.serializer Sample.zero_server
                            Sample.file App.initial))) = NumberText 0.
Proof.
  assert (Hr : truthy (JNum 0) = false).
  { cbn. destruct (Req_dec_T 0 0) as [_|H]; [reflexivity|now elim H]. }
  exact (falsy_analysis_rendering Sample.serializer Sample.zero_server
           Sample.file App.initial Sample.upload_body
           (Some Sample.three_trades) (JNum 0)
           eq_refl eq_refl eq_refl Hr).
Defined.

(** X21: an upload answered with a body that has no [trades] (an object
    without the key, or a value that is not an object) does not stop the
    run: the analysis is requested with [trades] undefined and the capital
    of the input field. *)
Theorem missing_trades_still_analysed (JSON_stringify : json -> string)
  (fetch : request -> outcome Response) (file : File) (st : AppState)
  (uploadData : json) :
  upload_result JSON_stringify fetch file = Return uploadData ->
  get_prop uploadData "trades" = Return None ->
  sent (run JSON_stringify fetch file st) =
    [PostUpload file;
     PostAnalyze {| Api.trades := None;
                    Api.initial_capital := initialCapital st;
                    Api.n_simulations := 10000;
                    Api.n_sample_paths := 500 |}].
Proof.
  intros Hup Ht. unfold run.
  rewrite handleUpload_run, Hup, Ht. cbv zeta. cbn [app].
  destruct (analysis_result _ _ _); reflexivity.
Qed.

Lemma missing_trades_still_analysed_witness :
  sent (run Sample.serializer Sample.tradeless_server Sample.file
          App.initial) =
    [PostUpload Sample.file;
     PostAnalyze {| Api.trades := None;
                    Api.initial_capital := 1000000;
                    Api.n_simulations := 10000;
                    Api.n_sample_paths := 500 |}].
Proof.
  exact (missing_trades_still_analysed Sample.serializer
           Sample.tradeless_server Sample.file App.initial
           (JObj [("total_trades"%string, JNum 0)]) eq_refl eq_refl).
Defined.

(** ** Formatting of dollar amounts *)

(** X22: [fmtDollar] prints a negative amount as the minus sign followed
    by the text of the positive amount, for every rendering [toFixed] of
    the magnitude: [fmtDollar(-v) = "-" + fmtDollar(v)] for [v > 0]. *)
Theorem fmtDollar_negative (toFixed : R -> nat -> string) (v : R) :
  0 < v ->
  fmtDollar toFixed (- v) = ("-" ++ fmtDollar toFixed v)%string.
Proof.
  intros Hv. unfold fmtDollar. cbv zeta. rewrite Rabs_Ropp.
  replace (ltb (- v) 0) with true by (symmetry; apply ltb_true; lra).
  replace (ltb v 0) with false by (symmetry; apply ltb_false; lra).
  destruct (geb (Rabs v) 1e6); [reflexivity|].
  destruct (geb (Rabs v) 1e3); reflexivity.
Qed.

Lemma fmtDollar_negative_witness :
  0 < 1234 /\
  fmtDollar Sample.fixed (- 1234) =
  ("-" ++ fmtDollar Sample.fixed 1234)%string.
Proof.
  assert (H : 0 < 1234) by lra.
  split; [exact H|]. exact (fmtDollar_negative Sample.fixed 1234 H).
Defined.

(** ** The drop zone of Upload.jsx *)

(** X23: while [loading] no event of the drop zone starts an upload, opens
    the file dialog, changes the file name shown or switches the hover
    highlight on. *)
Theorem upload_blocked_while_loading (ev : Upload.event)
  (st : Upload.UploadState) :
  let after := Upload.dispatch true ev st in
  Upload.uploaded (snd after) = [] /\
  Upload.dialogOpened (snd after) = false /\
  Upload.fileName (fst after) = Upload.fileName st /\
  (Upload.dragOver (fst after) = true -> Upload.dragOver st = true).
Proof.
  cbv zeta. destruct ev; cbn; repeat split; intros; try discriminate; auto.
Qed.

(** X24: every event starts at most one upload; when not loading, a drop
    or a file selection with several files uploads the first one only and
    shows its name, and one without a file (no list, or an empty list)
    uploads nothing and keeps the name shown; a drop always ends the hover
    highlight. *)
Theorem upload_first_file (loading : bool) (ev : Upload.event)
  (st : Upload.UploadState) :
  (length (Upload.uploaded (snd (Upload.dispatch loading ev st))) <= 1)%nat /\
  (forall files f others,
     loading = false ->
     ev = Upload.Drop files \/ ev = Upload.Change files ->
     files = Some (f :: others) ->
     Upload.uploaded (snd (Upload.dispatch loading ev st)) = [f] /\
     Upload.fileName (fst (Upload.dispatch loading ev st)) =
       Some (file_name f)) /\
  (forall files,
     loading = false ->
     ev = Upload.Drop files \/ ev = Upload.Change files ->
     files = None \/ files = Some [] ->
     Upload.uploaded (snd (Upload.dispatch loading ev st)) = [] /\
     Upload.fileName (fst (Upload.dispatch loading ev st)) =
       Upload.fileName st) /\
  (forall files,
     loading = false -> ev = Upload.Drop files ->
     Upload.dragOver (fst (Upload.dispatch loading ev st)) = false).
Proof.
  split; [|split; [|split]].
  - destruct loading, ev as [| |[[|f l]|]|[[|f l]|]|]; cbn; lia.
  - intros files f others -> [-> | ->] ->; cbn; split; reflexivity.
  - intros files -> [-> | ->] [-> | ->]; cbn; split; reflexivity.
  - intros [[|f l]|] -> ->; reflexivity.
Qed.

Lemma upload_first_file_witness :
  Upload.uploaded
    (snd (Upload.dispatch false
            (Upload.Drop (Some [Sample.file; Sample.second_file]))
            Upload.initial)) = [Sample.file] /\
  Upload.fileName
    (fst (Upload.dispatch false
            (Upload.Drop (Some [Sample.file; Sample.second_file]))
            Upload.initial)) = Some "trades.csv"%string.
Proof.
  exact (proj1 (proj2 (upload_first_file false
                         (Upload.Drop (Some [Sample.file; Sample.second_file]))
                         Upload.initial))
               (Some [Sample.file; Sample.second_file]) Sample.file
               [Sample.second_file] eq_refl (or_introl eq_refl) eq_refl).
Defined.

(** ** Scaling to millions *)

Lemma nth_scaled (arr : list R) (j : nat) :
  (j < length arr)%nat ->
  nth j (map (fun v => v / 1e6) arr) 0 = nth j arr 0 / 1e6.
Proof.
  intros Hj. rewrite (nth_indep _ 0 (0 / 1e6)) by (now rewrite length_map).
  apply (map_nth (fun v => v / 1e6)).
Qed.

(** X25: [toM] keeps the length and the pointwise order of the band
    curves: where one path is at or below another, its curve in millions is
    at or below the other's. *)
Theorem toM_order (lower upper : list R) (j : nat) :
  (j < length lower)%nat -> (j < length upper)%nat ->
  nth j lower 0 <= nth j upper 0 ->
  length (toM lower) = length lower /\
  nth j (toM lower) 0 <= nth j (toM upper) 0.
Proof.
  intros Hl Hu Hle. unfold toM. rewrite length_map, !nth_scaled by assumption.
  split; [reflexivity|lra].
Qed.

Lemma toM_order_witness :
  (0 < length Sample.lower_band)%nat /\
  (0 < length Sample.upper_band)%nat /\
  nth 0 Sample.lower_band 0 <= nth 0 Sample.upper_band 0 /\
  length (toM Sample.lower_band) = length Sample.lower_band /\
  nth 0 (toM Sample.lower_band) 0 <= nth 0 (toM Sample.upper_band) 0.
Proof.
  assert (H1 : (0 < length Sample.lower_band)%nat) by (cbn; lia).
  assert (H2 : (0 < length Sample.upper_band)%nat) by (cbn; lia).
  assert (H3 : nth 0 Sample.lower_band 0 <= nth 0 Sample.upper_band 0)
    by (cbn; lra).
  split; [exact H1|]. split; [exact H2|]. split; [exact H3|].
  exact (toM_order Sample.lower_band Sample.upper_band 0 H1 H2 H3).
Defined.

(** X26: [EquityChart] draws nothing without data; with data it draws one
    value per equity entry over the times as given, each value the equity
    divided by [1e6], and the reference line at the capital divided by
    [1e6]; an equity at or above the capital is drawn at or above the
    line, so a value drawn below the line is an equity below the
    capital. *)
Theorem equity_chart (data : option EquityChart.EquityData)
  (initialCapital : R) :
  (data = None -> EquityChart.EquityChart data initialCapital = None) /\
  (forall d, data = Some d ->
     exists chart,
       EquityChart.EquityChart data initialCapital = Some chart /\
       EquityChart.trace_x chart = EquityChart.times d /\
       EquityChart.reference chart = initialCapital / 1e6 /\
       length (EquityChart.trace_y chart) = length (EquityChart.equity d) /\
       forall j, (j < length (EquityChart.equity d))%nat ->
         nth j (EquityChart.trace_y chart) 0 =
           nth j (EquityChart.equity d) 0 / 1e6 /\
         (initialCapital <= nth j (EquityChart.equity d) 0 ->
          EquityChart.reference chart <= nth j (EquityChart.trace_y chart) 0)
         /\
         (nth j (EquityChart.trace_y chart) 0 < EquityChart.reference chart
          -> nth j (EquityChart.equity d) 0 < initialCapital)).
Proof.
  split; [now intros ->|].
  intros d ->. eexists. split; [reflexivity|]. cbn.
  split; [reflexivity|]. split; [reflexivity|].
  split; [now rewrite length_map|].
  intros j Hj. rewrite nth_scaled by exact Hj.
  split; [reflexivity|]. split; intros; lra.
Qed.

Lemma equity_chart_witness :
  exists chart,
    EquityChart.EquityChart
      (Some {| EquityChart.times := [1; 2; 3]%Z;
               EquityChart.equity := [1100; 1050; 1250] |}) 1000 =
      Some chart /\
    EquityChart.trace_x chart = [1; 2; 3]%Z /\
    length (EquityChart.trace_y chart) = 3%nat.
Proof.
  destruct (proj2 (equity_chart
                     (Some {| EquityChart.times := [1; 2; 3]%Z;
                              EquityChart.equity := [1100; 1050; 1250] |})
                     1000) _ eq_refl) as (chart & H1 & H2 & _ & H3 & _).
  exists chart. split; [exact H1|]. split; [exact H2|exact H3].
Defined.
